(** * OpenQuestCapture: [scripts/sync_quest_recordings.py]

    A shallow embedding of the recording synchroniser and the properties
    of its planner, its executor and its exit status.

    Python values are modelled as follows.
    - [str] is a list of Unicode code points ([pystr]); comparison is
      lexicographic on code points, as in CPython.
    - [int] is [Z].
    - [set[str]] is a [gset pystr]; [list[str]] is a [list pystr].
    - [dict] (only [dict.fromkeys]) is the list of its keys in insertion
      order.
    - The operating system (the [adb] executable, the local file system,
      the process table) is a state [World] reached through the interface
      [OS]; every call of [subprocess.run] and every [print] is recorded
      in the trace of the run.
    - [RuntimeError] is the [Raise] case of [result].  Other exceptions
      (an [OSError] out of [mkdir], [iterdir] or [subprocess.run]) are
      outside the model: the calls of [OS] are total. *)

From Stdlib Require Import String Ascii NArith ZArith DecimalString.
From stdpp Require Import base list gmap sorting.

#[local] Set Warnings "-clear-no-such-hyp".

Open Scope N_scope.

(** ** Python strings *)

Definition pystr := list N.

Definition ord (a : ascii) : N := N_of_ascii a.

(** An ASCII literal as a Python string. *)
Definition py (s : string) : pystr := ord <$> list_ascii_of_string s.
Arguments py s%_string.

(** [str(n)] for an [int]. *)
Definition str_of_int (z : Z) : pystr := py (NilZero.string_of_int (Z.to_int z)).

(** [str(n)] for a length. *)
Definition str_of_len (n : nat) : pystr := str_of_int (Z.of_nat n).

(** [sep.join(parts)] *)
Fixpoint str_join (sep : pystr) (parts : list pystr) : pystr :=
  match parts with
  | [] => []
  | [p] => p
  | p :: rest => p ++ sep ++ str_join sep rest
  end.

(** [str.isspace] of one character, the class that [strip] and [split]
    without argument remove. *)
Definition isspace (c : N) : bool :=
  ((9 <=? c) && (c <=? 13)) || ((28 <=? c) && (c <=? 32))
  || (c =? 133) || (c =? 160) || (c =? 5760)
  || ((8192 <=? c) && (c <=? 8202))
  || (c =? 8232) || (c =? 8233) || (c =? 8239) || (c =? 8287) || (c =? 12288).

(** The line boundaries of [str.splitlines]. *)
Definition is_linebreak (c : N) : bool :=
  ((10 <=? c) && (c <=? 13)) || ((28 <=? c) && (c <=? 30))
  || (c =? 133) || (c =? 8232) || (c =? 8233).

Fixpoint lstrip (s : pystr) : pystr :=
  match s with
  | c :: rest => if isspace c then lstrip rest else s
  | [] => []
  end.

Definition rstrip (s : pystr) : pystr := reverse (lstrip (reverse s)).

(** [s.strip()] *)
Definition strip (s : pystr) : pystr := rstrip (lstrip s).

(** [s.replace(old, new)] for a one-character [old]. *)
Definition str_replace (old : N) (new : pystr) (s : pystr) : pystr :=
  c ← s; if c =? old then new else [c].

(** [s.startswith(prefix)] *)
Definition startswith (prefix s : pystr) : bool :=
  bool_decide (take (length prefix) s = prefix).

(** [s.splitlines()]: [cur] is the line being read, last character first.
    A carriage return followed by a line feed is one boundary. *)
Fixpoint splitlines_from (cur : pystr) (s : pystr) : list pystr :=
  match s with
  | [] => match cur with [] => [] | _ => [reverse cur] end
  | c :: rest =>
      if is_linebreak c then
        reverse cur ::
          match rest with
          | c' :: rest' =>
              if (c =? 13) && (c' =? 10) then splitlines_from [] rest'
              else splitlines_from [] rest
          | [] => []
          end
      else splitlines_from (c :: cur) rest
  end.

Definition splitlines (s : pystr) : list pystr := splitlines_from [] s.

(** [s.split()]: the maximal runs of characters that are not white space. *)
Fixpoint split_from (cur : pystr) (s : pystr) : list pystr :=
  match s with
  | [] => match cur with [] => [] | _ => [reverse cur] end
  | c :: rest =>
      if isspace c then
        match cur with
        | [] => split_from [] rest
        | _ => reverse cur :: split_from [] rest
        end
      else split_from (c :: cur) rest
  end.

Definition str_split (s : pystr) : list pystr := split_from [] s.

(** A word: not empty and without white space. *)
Definition word (t : pystr) : Prop := t ≠ [] ∧ Forall (λ c, isspace c = false) t.

(** Comparison of strings: lexicographic on code points. *)
Fixpoint pystr_leb (a b : pystr) : bool :=
  match a, b with
  | [], _ => true
  | _ :: _, [] => false
  | x :: a', y :: b' =>
      if x <? y then true else if y <? x then false else pystr_leb a' b'
  end.

Definition pystr_le (a b : pystr) : Prop := pystr_leb a b = true.

#[global] Instance pystr_le_dec : RelDecision pystr_le.
Proof. intros a b. unfold pystr_le. apply _. Defined.

(** [sorted(l)] *)
Definition sorted (l : list pystr) : list pystr := merge_sort pystr_le l.

(** ** The [re] module, as far as [SESSION_PATTERN] needs it *)

(** The class [\d] of a [str] pattern: the decimal digits of Unicode
    (category Nd), here of the Unicode 14.0 character database of
    CPython 3.11, as inclusive ranges of code points. *)
Definition Nd_ranges : list (N * N) :=
  [ (48, 57); (1632, 1641); (1776, 1785); (1984, 1993); (2406, 2415);
    (2534, 2543); (2662, 2671); (2790, 2799); (2918, 2927); (3046, 3055);
    (3174, 3183); (3302, 3311); (3430, 3439); (3558, 3567); (3664, 3673);
    (3792, 3801); (3872, 3881); (4160, 4169); (4240, 4249); (6112, 6121);
    (6160, 6169); (6470, 6479); (6608, 6617); (6784, 6793); (6800, 6809);
    (6992, 7001); (7088, 7097); (7232, 7241); (7248, 7257); (42528, 42537);
    (43216, 43225); (43264, 43273); (43472, 43481); (43504, 43513);
    (43600, 43609); (44016, 44025); (65296, 65305); (66720, 66729);
    (68912, 68921); (69734, 69743); (69872, 69881); (69942, 69951);
    (70096, 70105); (70384, 70393); (70736, 70745); (70864, 70873);
    (71248, 71257); (71360, 71369); (71472, 71481); (71904, 71913);
    (72016, 72025); (72784, 72793); (73040, 73049); (73120, 73129);
    (92768, 92777); (92864, 92873); (93008, 93017); (120782, 120831);
    (123200, 123209); (123632, 123641); (125264, 125273); (130032, 130041) ].

Definition in_range (c : N) (r : N * N) : bool := (r.1 <=? c) && (c <=? r.2).

Definition unicode_decimal (c : N) : bool := existsb (in_range c) Nd_ranges.

(** One position of a pattern: the anchors [^] and [$], the class [\d],
    or a literal character. *)
Inductive atom : Type :=
  | Caret
  | Dollar
  | Digit
  | Lit (c : N).

(** An atom, or an atom under the quantifier [{n}]. *)
Inductive item : Type :=
  | Once (a : atom)
  | Times (n : nat) (a : atom).

Definition pattern := list item.

(** [SESSION_PATTERN = re.compile(r"^\d{8}_\d{6}$")] *)
Definition SESSION_PATTERN : pattern :=
  [Once Caret; Times 8 Digit; Once (Lit (ord "_")); Times 6 Digit; Once Dollar].

(** Matching one atom at offset [pos] with [rest] still to read.  Without
    [re.MULTILINE], [^] holds at the start of the string only, and [$] at
    its end or just before a line feed that ends it. *)
Definition match_atom (a : atom) (pos : nat) (rest : pystr) : option (nat * pystr) :=
  match a with
  | Caret => if decide (pos = 0%nat) then Some (pos, rest) else None
  | Dollar =>
      match rest with
      | [] => Some (pos, rest)
      | [c] => if c =? 10 then Some (pos, rest) else None
      | _ => None
      end
  | Digit =>
      match rest with
      | c :: rest' => if unicode_decimal c then Some (S pos, rest') else None
      | [] => None
      end
  | Lit c0 =>
      match rest with
      | c :: rest' => if c =? c0 then Some (S pos, rest') else None
      | [] => None
      end
  end.

Fixpoint match_times (n : nat) (a : atom) (pos : nat) (rest : pystr)
  : option (nat * pystr) :=
  match n with
  | O => Some (pos, rest)
  | S n' =>
      match match_atom a pos rest with
      | Some (pos', rest') => match_times n' a pos' rest'
      | None => None
      end
  end.

Definition match_item (i : item) (pos : nat) (rest : pystr) : option (nat * pystr) :=
  match i with
  | Once a => match_atom a pos rest
  | Times n a => match_times n a pos rest
  end.

Fixpoint match_items (p : pattern) (pos : nat) (rest : pystr) : option (nat * pystr) :=
  match p with
  | [] => Some (pos, rest)
  | i :: p' =>
      match match_item i pos rest with
      | Some (pos', rest') => match_items p' pos' rest'
      | None => None
      end
  end.

(** [p.fullmatch(s) is not None]: the pattern matches from the start and
    the match ends at the end of the string. *)
Definition fullmatch (p : pattern) (s : pystr) : bool :=
  match match_items p 0 s with
  | Some (_, []) => true
  | _ => false
  end.

(** The naming rule in the words of the specification: exactly eight
    ASCII digits, an underscore, exactly six ASCII digits. *)
Definition is_ascii_digit (c : N) : bool := (48 <=? c) && (c <=? 57).

Definition spec_isValidSessionId (s : pystr) : bool :=
  bool_decide (length s = 15%nat)
  && forallb is_ascii_digit (take 8 s)
  && bool_decide (s !! 8%nat = Some (ord "_"))
  && forallb is_ascii_digit (drop 9 s).

(** ** The operating system and the trace of a run *)

(** [subprocess.CompletedProcess]; an output that was not captured is the
    empty string (the script reads such a field under [capture_output=True]
    or through an [or] with the empty string only). *)
Record CompletedProcess : Type := {
  returncode : Z;
  stdout : pystr;
  stderr : pystr
}.

(** What a run does to its surroundings, in order. *)
Inductive event : Type :=
  | Exec (cmd : list pystr)      (* subprocess.run(cmd, ...) *)
  | Out (line : pystr)           (* print(line) *)
  | Err (line : pystr).          (* print(line, file=sys.stderr) *)

(** [RuntimeError] or a value. *)
Inductive result (A : Type) : Type :=
  | Ok (a : A)
  | Raise (msg : pystr).
Arguments Ok {A} a.
Arguments Raise {A} msg.

(** The services of the standard library that reach outside the process. *)
Class OS : Type := {
  World : Type;
  Path : Type;                                   (* pathlib.Path *)
  which : pystr → World → bool;                  (* shutil.which(name) is not None *)
  os_run : list pystr → bool → World → CompletedProcess * World;
                                                 (* subprocess.run(cmd, text=True, capture_output=b) *)
  resolve : pystr → World → Path;                (* Path(p).expanduser().resolve() *)
  mkdir : Path → World → World;                  (* p.mkdir(parents=True, exist_ok=True) *)
  path_str : Path → pystr;                       (* str(p) *)
  path_div : Path → pystr → Path;                (* p / name *)
  path_exists : Path → World → bool;             (* p.exists() *)
  path_is_dir : Path → World → bool;             (* p.is_dir() *)
  iterdir : Path → World → list pystr            (* [e.name for e in p.iterdir()] *)
}.

(** The command-line arguments, as [parse_args] returns them. *)
Record Args : Type := {
  device_dir : pystr;
  local_dir : pystr;
  dry_run : bool;
  no_delete : bool;
  delete_old_only : bool
}.

(** The number of times [x] occurs in [l]. *)
Definition occurrences (x : pystr) (l : list pystr) : nat :=
  length (filter (λ y, y = x) l).

(** Truth value of a list or string: it is not empty. *)
Definition truthy {A} (l : list A) : bool :=
  match l with [] => false | _ => true end.

(** [list(dict.fromkeys(keys))]: a key that is already present keeps its
    place. *)
Definition dict_fromkeys (keys : list pystr) : list pystr :=
  foldl (λ d k, if decide (k ∈ d) then d else d ++ [k]) [] keys.

(** Sequencing of computations: [let* x := m in k] runs [m], then [k] on
    its value; [m >> k] runs [m] for its effect. *)
Declare Scope prog_scope.
Delimit Scope prog_scope with prog.
Reserved Notation "'let*' x ':=' m 'in' k"
  (at level 10, x pattern, m at level 100, k at level 200).
Reserved Notation "m >> k" (at level 100, k at level 200, right associativity).

Section Program.
Context {os : OS}.

(** A computation returns a value, the events it caused and the world
    it leaves. *)
Definition M (A : Type) : Type := World → A * list event * World.

Definition ret {A} (a : A) : M A := λ w, (a, [], w).

Definition bind {A B} (m : M A) (f : A → M B) : M B := λ w,
  let '(a, t1, w1) := m w in
  let '(b, t2, w2) := f a w1 in
  (b, t1 ++ t2, w2).

Notation "'let*' x ':=' m 'in' k" := (bind m (λ x, k)) : prog_scope.
Notation "m >> k" := (bind m (λ _, k)) : prog_scope.
Open Scope prog_scope.

Definition value {A} (r : A * list event * World) : A := r.1.1.
Definition trace {A} (r : A * list event * World) : list event := r.1.2.
Definition world {A} (r : A * list event * World) : World := r.2.

Definition subprocess_run (cmd : list pystr) (capture_output : bool)
  : M CompletedProcess :=
  λ w, let '(r, w') := os_run cmd capture_output w in (r, [Exec cmd], w').

Definition print (line : pystr) : M unit := λ w, (tt, [Out line], w).

Definition eprint (line : pystr) : M unit := λ w, (tt, [Err line], w).

(** Reading the world. *)
Definition ask {A} (f : World → A) : M A := λ w, (f w, [], w).

(** Changing the world. *)
Definition act (f : World → World) : M unit := λ w, (tt, [], f w).

Definition devices_command : list pystr := [py "adb"; py "devices"].

Definition listing_command (device_dir : pystr) : list pystr :=
  [py "adb"; py "shell"; py "ls"; py "-1"; device_dir].

Definition run_checked (cmd : list pystr) (capture_output : bool)
  : M (result CompletedProcess) :=
  let* result := subprocess_run cmd capture_output in
  if decide (returncode result ≠ 0%Z) then
    let stderr := strip (stderr result) in
    let stdout := strip (stdout result) in
    let details := if truthy stderr then stderr else stdout in
    ret (Raise (py "Command failed (" ++ str_of_int (returncode result)
                 ++ py "): " ++ str_join (py " ") cmd ++ [10] ++ details))
  else ret (Ok result).

Definition ensure_adb_available : M (result unit) :=
  let* found := ask (which (py "adb")) in
  if found then ret (Ok tt)
  else ret (Raise (py "adb was not found in PATH.")).

(** The body of the loop of [ensure_device_connected] on one line of
    [adb devices]. *)
Definition classify_device (acc : list pystr * list pystr) (line : pystr)
  : list pystr * list pystr :=
  let '(connected, unauthorized) := acc in
  let line := strip line in
  if negb (truthy line) then acc
  else
    let parts := str_split line in
    if decide (length parts < 2)%nat then acc
    else
      match parts with
      | serial :: state :: _ =>
          if decide (state = py "device") then (connected ++ [serial], unauthorized)
          else if decide (state = py "unauthorized") then (connected, unauthorized ++ [serial])
          else acc
      | _ => acc
      end.

(** The lists [connected] and [unauthorized] after the loop. *)
Definition parse_devices (output : pystr) : list pystr * list pystr :=
  foldl classify_device ([], []) (drop 1 (splitlines output)).

Definition unauthorized_message : pystr :=
  py "Quest is connected but unauthorized. Put on the headset and allow USB debugging.".

Definition no_device_message : pystr := py "No ADB device detected.".

Definition ensure_device_connected : M (result pystr) :=
  let* r := run_checked [py "adb"; py "devices"] true in
  match r with
  | Raise msg => ret (Raise msg)
  | Ok proc =>
      let '(connected, unauthorized) := parse_devices (stdout proc) in
      if truthy unauthorized && negb (truthy connected) then
        ret (Raise unauthorized_message)
      else
        match connected with
        | [] => ret (Raise no_device_message)
        | serial :: _ => ret (Ok serial)
        end
  end.

(** The body of the loop of [list_device_sessions] on one line: the
    name on it is the line stripped, with its carriage returns removed. *)
Definition line_name (raw : pystr) : pystr := str_replace 13 [] (strip raw).

Definition keep_session (sessions : list pystr) (raw : pystr) : list pystr :=
  let name := line_name raw in
  if fullmatch SESSION_PATTERN name then sessions ++ [name] else sessions.

Definition parse_sessions (output : pystr) : list pystr :=
  sorted (foldl keep_session [] (splitlines output)).

Definition list_device_sessions (device_dir : pystr) : M (result (list pystr)) :=
  let* r := run_checked [py "adb"; py "shell"; py "ls"; py "-1"; device_dir] true in
  match r with
  | Raise msg => ret (Raise msg)
  | Ok proc => ret (Ok (parse_sessions (stdout proc)))
  end.

Fixpoint scan_entries (local_dir : Path) (names : list pystr)
    (sessions : gset pystr) : M (gset pystr) :=
  match names with
  | [] => ret sessions
  | name :: rest =>
      let* is_dir := ask (path_is_dir (path_div local_dir name)) in
      if is_dir && fullmatch SESSION_PATTERN name
      then scan_entries local_dir rest (sessions ∪ {[name]})
      else scan_entries local_dir rest sessions
  end.

Definition list_local_sessions (local_dir : Path) : M (gset pystr) :=
  let* present := ask (path_exists local_dir) in
  if negb present then ret ∅
  else
    let* names := ask (iterdir local_dir) in
    scan_entries local_dir names ∅.

Definition pull_command (session device_dir : pystr) (local_dir : Path) : list pystr :=
  [py "adb"; py "pull"; device_dir ++ py "/" ++ session; path_str local_dir].

(** The line that stands for a pull in a dry run. *)
Definition pull_notice (session device_dir : pystr) (local_dir : Path) : pystr :=
  py "[DRY-RUN] pull " ++ (device_dir ++ py "/" ++ session) ++ py " -> "
  ++ path_str local_dir.

Definition pull_session (session device_dir : pystr) (local_dir : Path)
    (dry_run : bool) : M bool :=
  let remote := device_dir ++ py "/" ++ session in
  if dry_run then
    print (py "[DRY-RUN] pull " ++ remote ++ py " -> " ++ path_str local_dir) >>
    ret true
  else
    print (py "Pulling " ++ session ++ py "...") >>
    let* result := subprocess_run [py "adb"; py "pull"; remote; path_str local_dir] false in
    if decide (returncode result ≠ 0%Z) then
      eprint (py "  [FAIL] adb pull failed for " ++ session) >>
      ret false
    else
      let local_session_dir := path_div local_dir session in
      let* created := ask (path_is_dir local_session_dir) in
      if negb created then
        eprint (py "  [FAIL] Pull completed but " ++ path_str local_session_dir
                ++ py " was not created.") >>
        ret false
      else
        print (py "  [OK]") >>
        ret true.

Definition delete_command (session device_dir : pystr) : list pystr :=
  [py "adb"; py "shell"; py "rm"; py "-rf"; device_dir ++ py "/" ++ session].

(** The line that stands for a removal in a dry run. *)
Definition delete_notice (session device_dir : pystr) : pystr :=
  py "[DRY-RUN] delete " ++ (device_dir ++ py "/" ++ session).

Definition delete_session (session device_dir : pystr) (dry_run : bool) : M bool :=
  let remote := device_dir ++ py "/" ++ session in
  if dry_run then
    print (py "[DRY-RUN] delete " ++ remote) >>
    ret true
  else
    let* result := subprocess_run [py "adb"; py "shell"; py "rm"; py "-rf"; remote] true in
    if decide (returncode result ≠ 0%Z) then
      let stderr := strip (stderr result) in
      eprint (py "  [FAIL] delete " ++ session ++ py ": " ++ stderr) >>
      ret false
    else
      print (py "Deleted " ++ session) >>
      ret true.

(** The loop of lines 198 to 202. *)
Fixpoint pull_loop (args : Args) (local_dir : Path) (sessions : list pystr)
    (pulled_ok pull_failed : list pystr) : M (list pystr * list pystr) :=
  match sessions with
  | [] => ret (pulled_ok, pull_failed)
  | session :: rest =>
      let* ok := pull_session session (device_dir args) local_dir (dry_run args) in
      if ok then pull_loop args local_dir rest (pulled_ok ++ [session]) pull_failed
      else pull_loop args local_dir rest pulled_ok (pull_failed ++ [session])
  end.

(** The choice of lines 204 to 211. *)
Definition choose_delete_candidates (args : Args)
    (old_sessions pulled_ok : list pystr) : M (list pystr) :=
  if no_delete args then
    print (py "Deletion disabled (--no-delete).") >>
    ret []
  else if delete_old_only args then ret old_sessions
  else ret (dict_fromkeys (old_sessions ++ pulled_ok)).

(** The list that [choose_delete_candidates] returns. *)
Definition candidates_of (args : Args) (old_sessions pulled_ok : list pystr)
  : list pystr :=
  if no_delete args then []
  else if delete_old_only args then old_sessions
  else dict_fromkeys (old_sessions ++ pulled_ok).

(** The loop of lines 215 to 219. *)
Fixpoint delete_loop (args : Args) (candidates : list pystr)
    (deleted_ok delete_failed : list pystr) : M (list pystr * list pystr) :=
  match candidates with
  | [] => ret (deleted_ok, delete_failed)
  | session :: rest =>
      let* ok := delete_session session (device_dir args) (dry_run args) in
      if ok then delete_loop args rest (deleted_ok ++ [session]) delete_failed
      else delete_loop args rest deleted_ok (delete_failed ++ [session])
  end.

(** The local variables of [main] when it reaches line 232. *)
Record Report : Type := {
  local_before : gset pystr;
  new_sessions : list pystr;
  old_sessions : list pystr;
  pulled_ok : list pystr;
  pull_failed : list pystr;
  delete_candidates : list pystr;
  deleted_ok : list pystr;
  delete_failed : list pystr
}.

(** Lines 187 to 230 of [main]: the plan, the two phases, the summary. *)
Definition sync (args : Args) (local_dir : Path) (device_sessions : list pystr)
  : M Report :=
  let* local_before := list_local_sessions local_dir in
  let new_sessions := filter (λ s, s ∉ local_before) device_sessions in
  let old_sessions := filter (λ s, s ∈ local_before) device_sessions in
  print (py "Device sessions: " ++ str_of_len (length device_sessions)) >>
  print (py "New sessions to pull: " ++ str_of_len (length new_sessions)) >>
  print (py "Already local sessions: " ++ str_of_len (length old_sessions)) >>
  let* (pulled_ok, pull_failed) := pull_loop args local_dir new_sessions [] [] in
  let* delete_candidates := choose_delete_candidates args old_sessions pulled_ok in
  let* (deleted_ok, delete_failed) := delete_loop args delete_candidates [] [] in
  print ([10] ++ py "Summary:") >>
  print (py "  Pulled successfully: " ++ str_of_len (length pulled_ok)) >>
  print (py "  Pull failed: " ++ str_of_len (length pull_failed)) >>
  print (py "  Deleted on device: " ++ str_of_len (length deleted_ok)) >>
  print (py "  Delete failed: " ++ str_of_len (length delete_failed)) >>
  (if truthy pull_failed
   then print (py "  Pull failures:" ++ py " " ++ str_join (py ", ") pull_failed)
   else ret tt) >>
  (if truthy delete_failed
   then print (py "  Delete failures:" ++ py " " ++ str_join (py ", ") delete_failed)
   else ret tt) >>
  ret {| local_before := local_before;
         new_sessions := new_sessions;
         old_sessions := old_sessions;
         pulled_ok := pulled_ok;
         pull_failed := pull_failed;
         delete_candidates := delete_candidates;
         deleted_ok := deleted_ok;
         delete_failed := delete_failed |}.

(** The checks of lines 167 to 172. *)
Definition preflight : M (result pystr) :=
  let* r := ensure_adb_available in
  match r with
  | Raise msg => ret (Raise msg)
  | Ok _ => ensure_device_connected
  end.

Definition main (args : Args) : M Z :=
  let* local_dir := ask (resolve (local_dir args)) in
  act (mkdir local_dir) >>
  let* r := preflight in
  match r with
  | Raise exc =>
      eprint (py "[ERROR] " ++ exc) >>
      ret 1%Z
  | Ok serial =>
      print (py "Using device: " ++ serial) >>
      print (py "Local directory: " ++ path_str local_dir) >>
      let* r := list_device_sessions (device_dir args) in
      match r with
      | Raise exc =>
          eprint (py "[ERROR] " ++ exc) >>
          ret 1%Z
      | Ok device_sessions =>
          if negb (truthy device_sessions) then
            print (py "No recording sessions found on the device.") >>
            ret 0%Z
          else
            let* report := sync args local_dir device_sessions in
            if truthy (pull_failed report) || truthy (delete_failed report)
            then ret 1%Z
            else ret 0%Z
      end
  end.

(** The commands of a trace, in the order in which they were run. *)
Definition commands (t : list event) : list (list pystr) :=
  omap (λ e, match e with Exec cmd => Some cmd | _ => None end) t.

(** The lines by which a dry run tells what it would do, in the order in
    which they were printed. *)
Definition dry_run_lines (t : list event) : list pystr :=
  omap (λ e, match e with
             | Out line => if startswith (py "[DRY-RUN] ") line then Some line else None
             | _ => None
             end) t.
End Program.

(** ** A scripted operating system

    One instance of [OS] on which the script can be run: a device bridge
    that answers from a script, next to a local disk that is the list of
    its directories.  It serves the examples at the end. *)

Record Script : Type := {
  sc_adb : bool;                     (* adb is in PATH *)
  sc_devices : CompletedProcess;     (* the answer of [adb devices] *)
  sc_listing : CompletedProcess;     (* the answer of [adb shell ls -1 dir] *)
  sc_pull_fails : list pystr;        (* remote paths whose pull exits 1 *)
  sc_pull_noop : list pystr;         (* remote paths whose pull exits 0 and copies nothing *)
  sc_rm_fails : list pystr           (* remote paths whose removal exits 1 *)
}.

Definition exited (code : Z) : CompletedProcess :=
  {| returncode := code; stdout := []; stderr := [] |}.

Definition printed (out : pystr) : CompletedProcess :=
  {| returncode := 0; stdout := out; stderr := [] |}.

(** The last component of a path. *)
Fixpoint basename_from (cur : pystr) (s : pystr) : pystr :=
  match s with
  | [] => reverse cur
  | c :: rest =>
      if c =? ord "/" then basename_from [] rest else basename_from (c :: cur) rest
  end.

(** The name [n] for which [q] is [p/n], if there is one. *)
Fixpoint child_name (p q : pystr) : option pystr :=
  match p, q with
  | [], c :: n =>
      if (c =? ord "/") && negb (bool_decide (ord "/" ∈ n)) then Some n else None
  | a :: p', b :: q' => if a =? b then child_name p' q' else None
  | _, _ => None
  end.

Definition fake_add_dir (p : pystr) (dirs : list pystr) : list pystr :=
  if decide (p ∈ dirs) then dirs else dirs ++ [p].

Definition fake_run (sc : Script) (cmd : list pystr) (capture_output : bool)
    (dirs : list pystr) : CompletedProcess * list pystr :=
  match cmd with
  | [a; b] =>
      if decide (cmd = [py "adb"; py "devices"]) then (sc_devices sc, dirs)
      else (exited 127, dirs)
  | [a; b; remote; dest] =>
      if decide ([a; b] = [py "adb"; py "pull"]) then
        if decide (remote ∈ sc_pull_fails sc) then (exited 1, dirs)
        else if decide (remote ∈ sc_pull_noop sc) then (exited 0, dirs)
        else (exited 0, fake_add_dir (dest ++ py "/" ++ basename_from [] remote) dirs)
      else (exited 127, dirs)
  | [a; b; c; d; e] =>
      if decide ([a; b; c; d] = [py "adb"; py "shell"; py "ls"; py "-1"]) then
        (sc_listing sc, dirs)
      else if decide ([a; b; c; d] = [py "adb"; py "shell"; py "rm"; py "-rf"]) then
        if decide (e ∈ sc_rm_fails sc) then (exited 1, dirs) else (exited 0, dirs)
      else (exited 127, dirs)
  | _ => (exited 127, dirs)
  end.

Definition fake_os (sc : Script) : OS := {|
  World := list pystr;
  Path := pystr;
  which := λ name dirs, sc_adb sc && bool_decide (name = py "adb");
  os_run := fake_run sc;
  resolve := λ p dirs, p;
  mkdir := fake_add_dir;
  path_str := λ p, p;
  path_div := λ p name, p ++ py "/" ++ name;
  path_exists := λ p dirs, bool_decide (p ∈ dirs);
  path_is_dir := λ p dirs, bool_decide (p ∈ dirs);
  iterdir := λ p dirs, omap (child_name p) dirs
|}.

(** The answer of [adb devices] with the given serials and states. *)
Definition devices_output (rows : list (pystr * pystr)) : pystr :=
  py "List of devices attached" ++ [10]
  ++ (row ← rows; row.1 ++ [9] ++ row.2 ++ [10]) ++ [10].

(** A bridge on which everything succeeds: one authorised headset and
    the given listing. *)
Definition script (listing : pystr) : Script :=
  {| sc_adb := true;
     sc_devices := printed (devices_output [(py "2G0YC1ZF8B07XY", py "device")]);
     sc_listing := printed listing;
     sc_pull_fails := []; sc_pull_noop := []; sc_rm_fails := [] |}.

(** The text of a listing with the given names, one on each line. *)
Definition lines (names : list pystr) : pystr := name ← names; name ++ [10].

Definition fake_args (dry no_del old_only : bool) : Args :=
  {| device_dir := py "/sdcard/rec"; local_dir := py "/data";
     dry_run := dry; no_delete := no_del; delete_old_only := old_only |}.

(** Three sessions, and a bridge that fails to pull the first. *)
Definition day1 : pystr := py "20240101_100000".
Definition day2 : pystr := py "20240102_100000".
Definition day3 : pystr := py "20240103_100000".

Definition flaky (listing : pystr) : Script :=
  {| sc_adb := true;
     sc_devices := printed (devices_output [(py "2G0YC1ZF8B07XY", py "device")]);
     sc_listing := printed listing;
     sc_pull_fails := [py "/sdcard/rec/20240101_100000"];
     sc_pull_noop := []; sc_rm_fails := [] |}.

(** ** Facts on strings *)

Lemma pystr_leb_refl a : pystr_leb a a = true.
Proof.
  induction a as [|x a IH]; simpl; [done|].
  by rewrite N.ltb_irrefl.
Qed.

#[global] Instance pystr_le_total : Total pystr_le.
Proof.
  intros a. unfold pystr_le.
  induction a as [|x a IH]; intros [|y b]; simpl; auto.
  destruct (N.ltb_spec x y), (N.ltb_spec y x); auto; lia.
Qed.

#[global] Instance pystr_le_trans : Transitive pystr_le.
Proof.
  intros a. unfold pystr_le.
  induction a as [|x a IH]; intros [|y b] [|z c]; simpl; try done.
  destruct (N.ltb_spec x y), (N.ltb_spec y x), (N.ltb_spec y z),
    (N.ltb_spec z y), (N.ltb_spec x z), (N.ltb_spec z x);
    try done; try lia; eauto.
Qed.

#[global] Instance pystr_le_antisymm : AntiSymm (=) pystr_le.
Proof.
  intros a. unfold pystr_le.
  induction a as [|x a IH]; intros [|y b]; simpl; try done.
  destruct (N.ltb_spec x y), (N.ltb_spec y x); try done; try lia.
  intros H1 H2. f_equal; [lia | by apply IH].
Qed.

Lemma sorted_StronglySorted l : StronglySorted pystr_le (sorted l).
Proof. apply StronglySorted_merge_sort; apply _. Qed.

Lemma sorted_Permutation l : sorted l ≡ₚ l.
Proof. apply merge_sort_Permutation. Qed.

Lemma StronglySorted_sublist {A} (R : relation A) (l k : list A) :
  sublist l k → StronglySorted R k → StronglySorted R l.
Proof.
  induction 1 as [|x l k Hs IH|x l k Hs IH]; intros Hk; [done|..].
  - apply StronglySorted_inv in Hk as [Hk Hx].
    constructor; [by apply IH|].
    apply Forall_forall. intros y Hy.
    rewrite Forall_forall in Hx. apply Hx. eauto using elem_of_sublist.
  - apply StronglySorted_inv in Hk as [Hk _]. by apply IH.
Qed.

(** ** The naming rule *)

Lemma unicode_decimal_ascii c :
  c < 128 → unicode_decimal c = is_ascii_digit c.
Proof.
  intros Hc. unfold unicode_decimal.
  change Nd_ranges with ((48, 57) :: tail Nd_ranges).
  cbn [existsb].
  assert (Hrest : Forall (λ r, 128 <= r.1) (tail Nd_ranges)).
  { apply (bool_decide_unpack _). by vm_compute. }
  replace (existsb (in_range c) (tail Nd_ranges)) with false.
  { unfold in_range, is_ascii_digit. simpl. by rewrite orb_false_r. }
  symmetry. induction Hrest as [|r rs Hr _ IH]; [done|].
  simpl. rewrite <- IH. unfold in_range.
  destruct (N.leb_spec r.1 c); [lia | done].
Qed.

Lemma match_times_digit n pos s pos' rest :
  match_times n Digit pos s = Some (pos', rest) ↔
  ∃ d, s = d ++ rest ∧ length d = n ∧ forallb unicode_decimal d = true
       ∧ pos' = (pos + n)%nat.
Proof.
  revert pos s. induction n as [|n IH]; intros pos s; simpl.
  - split.
    + intros [= <- <-]. exists []. split_and!; auto with lia.
    + intros (d & -> & Hd & _ & ->). destruct d; [|done].
      simpl. do 2 f_equal. lia.
  - destruct s as [|c s]; simpl.
    + split; [done|]. intros (d & Hs & Hd & _). by destruct d.
    + destruct (unicode_decimal c) eqn:Hc.
      * rewrite IH. split.
        -- intros (d & -> & <- & Hall & ->). exists (c :: d).
           simpl. rewrite Hc, Hall. split_and!; auto with lia.
        -- intros (d & Hs & Hd & Hall & ->). destruct d as [|c' d]; [done|].
           simpl in *. injection Hs as <- ->. injection Hd as <-.
           apply andb_prop in Hall as [_ Hall].
           exists d. split_and!; auto with lia.
      * split; [done|]. intros (d & Hs & Hd & Hall & _).
        destruct d as [|c' d]; [done|]. simpl in *. injection Hs as <- ->.
        by rewrite Hc in Hall.
Qed.

(** [SESSION_PATTERN.fullmatch] accepts exactly: eight decimal digits, an
    underscore, six decimal digits. *)
Lemma fullmatch_session s :
  fullmatch SESSION_PATTERN s = true ↔
  ∃ d t, s = d ++ ord "_" :: t ∧ length d = 8%nat ∧ length t = 6%nat
         ∧ forallb unicode_decimal d = true ∧ forallb unicode_decimal t = true.
Proof.
  unfold fullmatch, SESSION_PATTERN. cbn [match_items match_item match_atom].
  rewrite decide_True by done.
  destruct (match_times 8 Digit 0 s) as [[p1 r1]|] eqn:H1.
  2:{ split; [done|]. intros (d & t & -> & Hd & Ht & Hdd & Htd).
      assert (match_times 8 Digit 0 (d ++ ord "_" :: t) = Some (8%nat, ord "_" :: t)) as Hm.
      { apply match_times_digit. exists d. split_and!; auto. }
      congruence. }
  apply match_times_digit in H1 as (d & -> & Hd & Hdd & ->).
  destruct r1 as [|c r1].
  { split; [done|]. intros (d' & t & Hs & Hd' & _).
    apply (f_equal length) in Hs. rewrite !length_app in Hs. simpl in Hs. lia. }
  destruct (N.eqb_spec c (ord "_")) as [->|Hc].
  2:{ split; [done|]. intros (d' & t & Hs & Hd' & _).
      apply app_inj_1 in Hs as [_ Hs]; [|lia]. congruence. }
  destruct (match_times 6 Digit (S (0 + 8)) r1) as [[p2 r2]|] eqn:H2.
  2:{ split; [done|]. intros (d' & t & Hs & Hd' & Ht & _ & Htd).
      apply app_inj_1 in Hs as [_ [= ->]]; [|lia].
      assert (match_times 6 Digit (S (0 + 8)) t = Some ((S (0 + 8) + 6)%nat, [])) as Hm.
      { apply match_times_digit. exists t. rewrite app_nil_r. split_and!; auto. }
      congruence. }
  apply match_times_digit in H2 as (t & -> & Ht & Htd & ->).
  destruct r2 as [|c2 r2].
  - split; [|done]. intros _. exists d, t. by rewrite app_nil_r.
  - assert (¬ ∃ d' t' : list N, d ++ ord "_" :: t ++ c2 :: r2 = d' ++ ord "_" :: t'
              ∧ length d' = 8%nat ∧ length t' = 6%nat
              ∧ forallb unicode_decimal d' = true ∧ forallb unicode_decimal t' = true) as Hno.
    { intros (d' & t' & Hs & Hd' & Ht' & _).
      apply (f_equal length) in Hs. rewrite !length_app in Hs. simpl in Hs.
      rewrite !length_app in Hs. simpl in Hs. lia. }
    destruct r2 as [|c3 r2]; [destruct (c2 =? 10)|]; (split; [done|]); intros; by destruct Hno.
Qed.

Lemma forallb_digit_ascii l :
  Forall (λ c, c < 128) l →
  forallb unicode_decimal l = forallb is_ascii_digit l.
Proof.
  induction 1 as [|c l Hc _ IH]; [done|].
  simpl. by rewrite IH, unicode_decimal_ascii.
Qed.

Lemma spec_isValidSessionId_shape s :
  spec_isValidSessionId s = true ↔
  ∃ d t, s = d ++ ord "_" :: t ∧ length d = 8%nat ∧ length t = 6%nat
         ∧ forallb is_ascii_digit d = true ∧ forallb is_ascii_digit t = true.
Proof.
  unfold spec_isValidSessionId. rewrite !andb_true_iff, !bool_decide_eq_true.
  split.
  - intros [[[Hlen Hd] H8] Ht].
    exists (take 8 s), (drop 9 s).
    rewrite length_take, length_drop, Hlen. split_and!; auto.
    rewrite <- (take_drop 8 s) at 1. f_equal.
    rewrite (drop_S _ _ _ H8). done.
  - intros (d & t & -> & Hd & Ht & Hdd & Htd).
    do 8 (destruct d as [|? d]; [done|]). destruct d; [|done].
    do 6 (destruct t as [|? t]; [done|]). destruct t; [|done].
    cbn [take drop app length lookup list_lookup].
    change (forallb is_ascii_digit [n; n0; n1; n2; n3; n4; n5; n6] = true) in Hdd.
    rewrite Hdd, Htd. split_and!; auto.
Qed.

(** ** Facts on computations *)

Section Computations.
Context {os : OS}.

Lemma bind_run {A B} (m : M A) (f : A → M B) w :
  bind m f w =
  (value (f (value (m w)) (world (m w))),
   trace (m w) ++ trace (f (value (m w)) (world (m w))),
   world (f (value (m w)) (world (m w)))).
Proof.
  unfold bind, value, trace, world.
  destruct (m w) as [[a t1] w1]. simpl.
  by destruct (f a w1) as [[b t2] w2].
Qed.

Lemma value_bind {A B} (m : M A) (f : A → M B) w :
  value (bind m f w) = value (f (value (m w)) (world (m w))).
Proof. by rewrite bind_run. Qed.

Lemma trace_bind {A B} (m : M A) (f : A → M B) w :
  trace (bind m f w) = trace (m w) ++ trace (f (value (m w)) (world (m w))).
Proof. by rewrite bind_run. Qed.

Lemma world_bind {A B} (m : M A) (f : A → M B) w :
  world (bind m f w) = world (f (value (m w)) (world (m w))).
Proof. by rewrite bind_run. Qed.

Lemma commands_app t1 t2 : commands (t1 ++ t2) = commands t1 ++ commands t2.
Proof. apply omap_app. Qed.

Lemma subprocess_run_value cmd b w :
  value (subprocess_run cmd b w) = (os_run cmd b w).1.
Proof. unfold subprocess_run, value. by destruct (os_run cmd b w). Qed.

Lemma subprocess_run_trace cmd b w : trace (subprocess_run cmd b w) = [Exec cmd].
Proof. unfold subprocess_run, trace. by destruct (os_run cmd b w). Qed.

Lemma subprocess_run_world cmd b w :
  world (subprocess_run cmd b w) = (os_run cmd b w).2.
Proof. unfold subprocess_run, world. by destruct (os_run cmd b w). Qed.
End Computations.

Create Rewrite HintDb prog.
#[global] Hint Rewrite @value_bind @trace_bind @world_bind @commands_app
  @subprocess_run_value @subprocess_run_trace @subprocess_run_world : prog.

(** Unfolds the sequencing of a computation applied to a world. *)
Ltac prog :=
  repeat first
    [ progress autorewrite with prog
    | progress cbn [value trace world ret print eprint ask act fst snd negb
                    commands omap app list_omap] ].

Section Sessions.
Context {os : OS}.

Implicit Types (w : World) (args : Args) (ld : Path).

Lemma pull_session_value s dd ld dry w :
  value (pull_session s dd ld dry w) =
  dry || (bool_decide (returncode (os_run (pull_command s dd ld) false w).1 = 0%Z)
          && path_is_dir (path_div ld s) (os_run (pull_command s dd ld) false w).2).
Proof.
  unfold pull_session, pull_command. destruct dry; prog; [done|].
  destruct (decide (returncode _ ≠ _)) as [Hrc|Hrc]; prog.
  - by rewrite bool_decide_eq_false_2.
  - rewrite bool_decide_eq_true_2 by (by apply dec_stable).
    by destruct (path_is_dir _ _).
Qed.

Lemma pull_session_commands s dd ld dry w :
  commands (trace (pull_session s dd ld dry w)) =
  if dry then [] else [pull_command s dd ld].
Proof.
  unfold pull_session, pull_command. destruct dry; prog; [done|].
  destruct (decide (returncode _ ≠ _)); prog; [done|].
  by destruct (path_is_dir _ _).
Qed.

Lemma pull_session_world s dd ld dry w :
  world (pull_session s dd ld dry w) =
  if dry then w else (os_run (pull_command s dd ld) false w).2.
Proof.
  unfold pull_session, pull_command. destruct dry; prog; [done|].
  destruct (decide (returncode _ ≠ _)); prog; [done|].
  by destruct (path_is_dir _ _).
Qed.

Lemma delete_session_value s dd dry w :
  value (delete_session s dd dry w) =
  dry || bool_decide (returncode (os_run (delete_command s dd) true w).1 = 0%Z).
Proof.
  unfold delete_session, delete_command. destruct dry; prog; [done|].
  destruct (decide (returncode _ ≠ _)) as [Hrc|Hrc]; prog.
  - by rewrite bool_decide_eq_false_2.
  - by rewrite bool_decide_eq_true_2 by (by apply dec_stable).
Qed.

Lemma delete_session_commands s dd dry w :
  commands (trace (delete_session s dd dry w)) =
  if dry then [] else [delete_command s dd].
Proof.
  unfold delete_session, delete_command. destruct dry; prog; [done|].
  by destruct (decide (returncode _ ≠ _)); prog.
Qed.

(** *** The pull phase *)

Lemma pull_loop_commands args ld ss ok failed w :
  commands (trace (pull_loop args ld ss ok failed w)) =
  if dry_run args then []
  else (λ s, pull_command s (device_dir args) ld) <$> ss.
Proof.
  revert ok failed w. induction ss as [|s ss IH]; intros ok failed w.
  - by destruct (dry_run args).
  - cbn [pull_loop]. prog. rewrite pull_session_commands.
    destruct (value (pull_session _ _ _ _ _)); rewrite IH;
      by destruct (dry_run args).
Qed.

(** Every session of the phase lands in exactly one of the two lists,
    in the order of the phase. *)
Lemma pull_loop_split args ld ss ok failed w :
  ∃ ok' failed',
    value (pull_loop args ld ss ok failed w) = (ok ++ ok', failed ++ failed')
    ∧ sublist ok' ss ∧ sublist failed' ss ∧ ok' ++ failed' ≡ₚ ss.
Proof.
  revert ok failed w. induction ss as [|s ss IH]; intros ok failed w.
  - exists [], []. by rewrite !app_nil_r.
  - cbn [pull_loop]. prog.
    destruct (value (pull_session _ _ _ _ _)).
    + destruct (IH (ok ++ [s]) failed (world (pull_session s (device_dir args) ld (dry_run args) w)))
        as (ok' & failed' & -> & Hok & Hf & Hp).
      exists (s :: ok'), failed'. rewrite <- app_assoc. split_and!; auto.
      * by apply sublist_skip.
      * by apply sublist_cons.
      * simpl. by f_equiv.
    + destruct (IH ok (failed ++ [s]) (world (pull_session s (device_dir args) ld (dry_run args) w)))
        as (ok' & failed' & -> & Hok & Hf & Hp).
      exists ok', (s :: failed'). rewrite <- app_assoc. split_and!; auto.
      * by apply sublist_cons.
      * by apply sublist_skip.
      * rewrite <- Permutation_middle. by f_equiv.
Qed.


(** *** The delete phase *)

Lemma delete_loop_commands args cs ok failed w :
  commands (trace (delete_loop args cs ok failed w)) =
  if dry_run args then []
  else (λ s, delete_command s (device_dir args)) <$> cs.
Proof.
  revert ok failed w. induction cs as [|s cs IH]; intros ok failed w.
  - by destruct (dry_run args).
  - cbn [delete_loop]. prog. rewrite delete_session_commands.
    destruct (value (delete_session _ _ _ _)); rewrite IH;
      by destruct (dry_run args).
Qed.

Lemma delete_loop_dry args cs ok failed w :
  dry_run args = true →
  value (delete_loop args cs ok failed w) = (ok ++ cs, failed).
Proof.
  intros Hdry. revert ok failed w. induction cs as [|s cs IH]; intros ok failed w.
  - by rewrite app_nil_r.
  - cbn [delete_loop]. prog. rewrite delete_session_value, Hdry. simpl.
    by rewrite IH, <- app_assoc.
Qed.
End Sessions.

(** ** Facts on [dict.fromkeys] *)

Lemma fromkeys_foldl (keys d : list pystr) :
  ∃ fresh,
    foldl (λ d k, if decide (k ∈ d) then d else d ++ [k]) d keys = d ++ fresh
    ∧ sublist fresh keys ∧ NoDup fresh
    ∧ (∀ x, x ∈ fresh → x ∉ d)
    ∧ (∀ x, x ∈ keys → x ∈ d ∨ x ∈ fresh).
Proof.
  revert d. induction keys as [|k keys IH]; intros d.
  - exists []. rewrite app_nil_r. split_and!; auto using NoDup_nil_2; set_solver.
  - cbn [foldl]. destruct (decide (k ∈ d)) as [Hk|Hk].
    + destruct (IH d) as (fresh & -> & Hsub & Hnd & Hnew & Hall).
      exists fresh. split_and!; auto.
      * by apply sublist_cons.
      * intros x [->|Hx]%elem_of_cons; auto.
    + destruct (IH (d ++ [k])) as (fresh & -> & Hsub & Hnd & Hnew & Hall).
      exists (k :: fresh). rewrite <- app_assoc. split_and!; auto.
      * by apply sublist_skip.
      * apply NoDup_cons. split; [|done].
        intros Hin. apply (Hnew _ Hin). set_solver.
      * intros x [->|Hx]%elem_of_cons; [done|].
        intros Hd. apply (Hnew _ Hx). set_solver.
      * intros x [->|Hx]%elem_of_cons; [set_solver|].
        destruct (Hall _ Hx); set_solver.
Qed.

Lemma dict_fromkeys_NoDup keys : NoDup (dict_fromkeys keys).
Proof.
  unfold dict_fromkeys.
  by destruct (fromkeys_foldl keys []) as (fresh & -> & _ & Hnd & _).
Qed.

Lemma dict_fromkeys_elem keys x : x ∈ dict_fromkeys keys ↔ x ∈ keys.
Proof.
  unfold dict_fromkeys.
  destruct (fromkeys_foldl keys []) as (fresh & -> & Hsub & _ & _ & Hall).
  simpl. split.
  - intros Hx. by eapply elem_of_sublist.
  - intros Hx. destruct (Hall _ Hx) as [Hd|Hf]; [|done]. by apply elem_of_nil in Hd.
Qed.

(** The keys of a concatenation: the first occurrences in the first
    list, then those of the second list that are new. *)
Lemma dict_fromkeys_app a b :
  ∃ a' b', dict_fromkeys (a ++ b) = a' ++ b'
           ∧ a' = dict_fromkeys a ∧ sublist a' a ∧ sublist b' b.
Proof.
  unfold dict_fromkeys. rewrite foldl_app.
  destruct (fromkeys_foldl a []) as (a' & -> & Ha & _).
  destruct (fromkeys_foldl b ([] ++ a')) as (b' & -> & Hb & _).
  by exists a', b'.
Qed.

Lemma dict_fromkeys_sublist keys : sublist (dict_fromkeys keys) keys.
Proof.
  unfold dict_fromkeys.
  by destruct (fromkeys_foldl keys []) as (fresh & -> & Hsub & _).
Qed.

(** Keys that are not in the first part of the dictionary are looked up
    in the rest only. *)
Lemma fromkeys_foldl_disjoint (keys d0 d : list pystr) :
  (∀ x, x ∈ keys → x ∉ d0) →
  foldl (λ d k, if decide (k ∈ d) then d else d ++ [k]) (d0 ++ d) keys =
  d0 ++ foldl (λ d k, if decide (k ∈ d) then d else d ++ [k]) d keys.
Proof.
  revert d. induction keys as [|k keys IH]; intros d Hdis; [done|].
  cbn [foldl].
  assert (Hk : k ∉ d0) by (apply Hdis; left).
  assert (Hkeys : ∀ x, x ∈ keys → x ∉ d0) by (intros x Hx; apply Hdis; by right).
  destruct (decide (k ∈ d0 ++ d)) as [Hin|Hin], (decide (k ∈ d)) as [Hin'|Hin'].
  - by apply IH.
  - apply elem_of_app in Hin as [?|?]; done.
  - exfalso. apply Hin, elem_of_app. by right.
  - rewrite <- app_assoc. by apply IH.
Qed.

(** The keys of a concatenation of two lists with no common element:
    the first occurrences in the first list, then the first occurrences
    in the second. *)
Lemma dict_fromkeys_app_disjoint a b :
  (∀ x, x ∈ a → x ∉ b) →
  dict_fromkeys (a ++ b) = dict_fromkeys a ++ dict_fromkeys b.
Proof.
  intros Hdis.
  pose proof (fromkeys_foldl_disjoint b (dict_fromkeys a) []) as H.
  rewrite app_nil_r in H.
  unfold dict_fromkeys in *. rewrite foldl_app. apply H.
  intros x Hb Ha. apply (dict_fromkeys_elem a x) in Ha. by apply (Hdis x).
Qed.

Section Plan.
Context {os : OS}.

Implicit Types (w : World) (args : Args) (ld : Path).

Lemma scan_entries_pure ld names acc w :
  trace (scan_entries ld names acc w) = []
  ∧ world (scan_entries ld names acc w) = w.
Proof.
  revert acc. induction names as [|n names IH]; intros acc; [done|].
  cbn [scan_entries]. prog.
  by destruct (_ && _).
Qed.

Lemma list_local_sessions_pure ld w :
  trace (list_local_sessions ld w) = []
  ∧ world (list_local_sessions ld w) = w.
Proof.
  unfold list_local_sessions. prog.
  destruct (path_exists ld w); prog; [|done].
  apply scan_entries_pure.
Qed.

Lemma choose_delete_candidates_run args old ok w :
  value (choose_delete_candidates args old ok w) = candidates_of args old ok
  ∧ commands (trace (choose_delete_candidates args old ok w)) = []
  ∧ world (choose_delete_candidates args old ok w) = w.
Proof.
  unfold choose_delete_candidates, candidates_of.
  destruct (no_delete args); prog; [done|].
  by destruct (delete_old_only args).
Qed.

(** [sync] step by step: the inventory, the plan, the pull phase, the
    candidates, the delete phase. *)
Lemma sync_run args ld ds w :
  let lb := value (list_local_sessions ld w) in
  let new := filter (λ s, s ∉ lb) ds in
  let old := filter (λ s, s ∈ lb) ds in
  let pulls := pull_loop args ld new [] [] w in
  let cands := candidates_of args old (value pulls).1 in
  let deletes := delete_loop args cands [] [] (world pulls) in
  value (sync args ld ds w) =
    {| local_before := lb; new_sessions := new; old_sessions := old;
       pulled_ok := (value pulls).1; pull_failed := (value pulls).2;
       delete_candidates := cands;
       deleted_ok := (value deletes).1; delete_failed := (value deletes).2 |}
  ∧ commands (trace (sync args ld ds w)) =
      commands (trace pulls) ++ commands (trace deletes)
  ∧ world (sync args ld ds w) = world deletes.
Proof.
  intros lb new old pulls cands deletes.
  unfold sync.
  destruct (list_local_sessions_pure ld w) as [Ht Hw].
  rewrite !value_bind, !trace_bind, !world_bind.
  fold lb. rewrite Ht, Hw.
  cbn [print value trace world fst snd].
  fold new old. fold pulls.
  destruct (value pulls) as [ok failed] eqn:Hpulls.
  rewrite !value_bind, !trace_bind, !world_bind.
  destruct (choose_delete_candidates_run args old ok (world pulls))
    as (Hc & Hct & Hcw).
  rewrite Hc, Hcw. cbn [fst snd] in cands. fold cands. fold deletes.
  destruct (value deletes) as [dok dfailed] eqn:Hdeletes.
  rewrite !commands_app, Hct.
  prog.
  destruct (truthy failed), (truthy dfailed); prog;
    by rewrite ?app_nil_r.
Qed.
End Plan.

(** ** Facts on the lines of a dry run *)

Lemma startswith_app p s : startswith p (p ++ s) = true.
Proof. unfold startswith. by rewrite take_app_length, bool_decide_eq_true_2. Qed.

(** A line that begins with another character than the bracket is no
    line of a dry run. *)
Lemma startswith_other (a : ascii) (s : string) (rest : pystr) :
  ord a ≠ ord "[" →
  startswith (py "[DRY-RUN] ") (py (String a s) ++ rest) = false.
Proof.
  intros Ha. apply bool_decide_eq_false_2. intros [= H _]. done.
Qed.

Section DryRun.
Context {os : OS}.

Implicit Types (w : World) (args : Args) (ld : Path) (t : list event).

Lemma dry_run_lines_app t1 t2 :
  dry_run_lines (t1 ++ t2) = dry_run_lines t1 ++ dry_run_lines t2.
Proof. apply omap_app. Qed.

Lemma dry_run_lines_exec cmd t : dry_run_lines (Exec cmd :: t) = dry_run_lines t.
Proof. done. Qed.

Lemma dry_run_lines_err line t : dry_run_lines (Err line :: t) = dry_run_lines t.
Proof. done. Qed.

Lemma dry_run_lines_out (a : ascii) (s : string) (rest : pystr) t :
  ord a ≠ ord "[" →
  dry_run_lines (Out (py (String a s) ++ rest) :: t) = dry_run_lines t.
Proof.
  intros Ha. unfold dry_run_lines. cbn [omap list_omap].
  by rewrite startswith_other.
Qed.

Lemma dry_run_lines_literal (a : ascii) (s : string) t :
  ord a ≠ ord "[" →
  dry_run_lines (Out (py (String a s)) :: t) = dry_run_lines t.
Proof.
  intros Ha. rewrite <- (app_nil_r (py _)). by apply dry_run_lines_out.
Qed.

Lemma dry_run_lines_pull_notice s dd ld t :
  dry_run_lines (Out (pull_notice s dd ld) :: t) = pull_notice s dd ld :: dry_run_lines t.
Proof.
  unfold dry_run_lines, pull_notice. cbn [omap list_omap].
  change (py "[DRY-RUN] pull ") with (py "[DRY-RUN] " ++ py "pull ").
  by rewrite <- (app_assoc (py "[DRY-RUN] ")), startswith_app.
Qed.

Lemma dry_run_lines_delete_notice s dd t :
  dry_run_lines (Out (delete_notice s dd) :: t) = delete_notice s dd :: dry_run_lines t.
Proof.
  unfold dry_run_lines, delete_notice. cbn [omap list_omap].
  change (py "[DRY-RUN] delete ") with (py "[DRY-RUN] " ++ py "delete ").
  by rewrite <- (app_assoc (py "[DRY-RUN] ")), startswith_app.
Qed.

(** Drops from a trace the events that are no line of a dry run. *)
Ltac dry_lines :=
  repeat first
    [ rewrite dry_run_lines_app
    | rewrite dry_run_lines_exec
    | rewrite dry_run_lines_err
    | rewrite dry_run_lines_out by done
    | rewrite dry_run_lines_literal by done ].

Lemma pull_session_dry_run_lines s dd ld dry w :
  dry_run_lines (trace (pull_session s dd ld dry w)) =
  if dry then [pull_notice s dd ld] else [].
Proof.
  unfold pull_session. destruct dry; prog.
  - apply dry_run_lines_pull_notice.
  - dry_lines.
    destruct (decide (returncode _ ≠ _)); prog; dry_lines; [done|].
    by destruct (path_is_dir _ _); prog; dry_lines.
Qed.

Lemma delete_session_dry_run_lines s dd dry w :
  dry_run_lines (trace (delete_session s dd dry w)) =
  if dry then [delete_notice s dd] else [].
Proof.
  unfold delete_session. destruct dry; prog.
  - apply dry_run_lines_delete_notice.
  - dry_lines.
    by destruct (decide (returncode _ ≠ _)); prog; dry_lines.
Qed.

Lemma pull_loop_dry_run_lines args ld ss ok failed w :
  dry_run_lines (trace (pull_loop args ld ss ok failed w)) =
  if dry_run args then (λ s, pull_notice s (device_dir args) ld) <$> ss else [].
Proof.
  revert ok failed w. induction ss as [|s ss IH]; intros ok failed w.
  - by destruct (dry_run args).
  - cbn [pull_loop]. prog. rewrite dry_run_lines_app, pull_session_dry_run_lines.
    destruct (value (pull_session _ _ _ _ _)); rewrite IH;
      by destruct (dry_run args).
Qed.

Lemma delete_loop_dry_run_lines args cs ok failed w :
  dry_run_lines (trace (delete_loop args cs ok failed w)) =
  if dry_run args then (λ s, delete_notice s (device_dir args)) <$> cs else [].
Proof.
  revert ok failed w. induction cs as [|s cs IH]; intros ok failed w.
  - by destruct (dry_run args).
  - cbn [delete_loop]. prog. rewrite dry_run_lines_app, delete_session_dry_run_lines.
    destruct (value (delete_session _ _ _ _)); rewrite IH;
      by destruct (dry_run args).
Qed.

Lemma choose_delete_candidates_dry_run_lines args old ok w :
  dry_run_lines (trace (choose_delete_candidates args old ok w)) = [].
Proof.
  unfold choose_delete_candidates.
  destruct (no_delete args); prog; dry_lines; [done|].
  by destruct (delete_old_only args).
Qed.

Lemma sync_dry_run_lines args ld ds w :
  let o := value (sync args ld ds w) in
  dry_run_lines (trace (sync args ld ds w)) =
  if dry_run args
  then ((λ s, pull_notice s (device_dir args) ld) <$> new_sessions o)
         ++ ((λ s, delete_notice s (device_dir args)) <$> delete_candidates o)
  else [].
Proof.
  intros o. subst o.
  pose proof (sync_run args ld ds w) as H. cbv zeta in H.
  destruct H as (-> & _ & _).
  cbn [new_sessions delete_candidates].
  unfold sync.
  destruct (list_local_sessions_pure ld w) as [Ht Hw].
  autorewrite with prog. rewrite Ht, Hw.
  cbn [print value trace world fst snd app].
  set (lb := value (list_local_sessions ld w)).
  set (new := filter (λ s, s ∉ lb) ds).
  set (old := filter (λ s, s ∈ lb) ds).
  set (pulls := pull_loop args ld new [] [] w).
  dry_lines.
  unfold pulls at 1. rewrite pull_loop_dry_run_lines.
  destruct (value pulls) as [ok failed] eqn:Hpulls.
  autorewrite with prog.
  destruct (choose_delete_candidates_run args old ok (world pulls))
    as (Hc & _ & Hcw).
  rewrite Hc, Hcw. dry_lines. rewrite choose_delete_candidates_dry_run_lines.
  cbn [fst snd app].
  set (deletes := delete_loop args (candidates_of args old ok) [] [] (world pulls)).
  unfold deletes at 1. rewrite delete_loop_dry_run_lines.
  destruct (value deletes) as [dok dfailed].
  prog. dry_lines.
  destruct (truthy failed), (truthy dfailed); prog; dry_lines;
    destruct (dry_run args); by rewrite ?app_nil_r.
Qed.
End DryRun.

(** ** Facts on the checks and on [main] *)

Section Orchestrator.
Context {os : OS}.

Implicit Types (w : World) (args : Args) (ld : Path).

Lemma run_checked_trace cmd b w : trace (run_checked cmd b w) = [Exec cmd].
Proof.
  unfold run_checked. prog.
  destruct (decide (returncode _ ≠ _)); by prog.
Qed.

Lemma run_checked_world cmd b w :
  world (run_checked cmd b w) = (os_run cmd b w).2.
Proof.
  unfold run_checked. prog.
  destruct (decide (returncode _ ≠ _)); by prog.
Qed.

Lemma run_checked_ok cmd b w :
  returncode (os_run cmd b w).1 = 0%Z →
  value (run_checked cmd b w) = Ok (os_run cmd b w).1.
Proof.
  intros Hrc. unfold run_checked. prog.
  by rewrite decide_False by (by intros []).
Qed.

Lemma run_checked_raise cmd b w :
  returncode (os_run cmd b w).1 ≠ 0%Z →
  ∃ msg, value (run_checked cmd b w) = Raise msg.
Proof.
  intros Hrc. unfold run_checked. prog.
  rewrite decide_True by done. prog. eauto.
Qed.

Lemma ensure_device_connected_trace w :
  trace (ensure_device_connected w) = [Exec devices_command].
Proof.
  unfold ensure_device_connected. prog. rewrite run_checked_trace.
  destruct (value (run_checked _ _ _)) as [proc|msg]; prog; [|done].
  destruct (parse_devices (stdout proc)) as [connected unauthorized].
  destruct (truthy unauthorized && negb (truthy connected)); prog; [done|].
  by destruct connected.
Qed.

Lemma ensure_device_connected_world w :
  world (ensure_device_connected w) = (os_run devices_command true w).2.
Proof.
  unfold ensure_device_connected. prog. rewrite run_checked_world.
  destruct (value (run_checked _ _ _)) as [proc|msg]; prog; [|done].
  destruct (parse_devices (stdout proc)) as [connected unauthorized].
  destruct (truthy unauthorized && negb (truthy connected)); prog; [done|].
  by destruct connected.
Qed.

(** The verdict of the device check on the output of [adb devices]. *)
Lemma ensure_device_connected_value w :
  returncode (os_run devices_command true w).1 = 0%Z →
  value (ensure_device_connected w) =
  match parse_devices (stdout (os_run devices_command true w).1) with
  | ([], []) => Raise no_device_message
  | ([], _ :: _) => Raise unauthorized_message
  | (serial :: _, _) => Ok serial
  end.
Proof.
  intros Hrc. unfold ensure_device_connected. prog.
  rewrite run_checked_ok by done. fold devices_command.
  destruct (parse_devices _) as [[|serial connected] [|u unauthorized]]; by prog.
Qed.

Lemma ensure_device_connected_failed w :
  returncode (os_run devices_command true w).1 ≠ 0%Z →
  ∃ msg, value (ensure_device_connected w) = Raise msg.
Proof.
  intros Hrc. unfold ensure_device_connected. prog.
  destruct (run_checked_raise devices_command true w Hrc) as [msg Hmsg].
  fold devices_command. rewrite Hmsg. prog. eauto.
Qed.

Lemma preflight_run w :
  preflight w =
  if which (py "adb") w then ensure_device_connected w
  else (Raise (py "adb was not found in PATH."), [], w).
Proof.
  unfold preflight, ensure_adb_available. rewrite !bind_run. prog.
  destruct (which (py "adb") w); prog; [|done].
  by destruct (ensure_device_connected w) as [[r t] w'].
Qed.

Lemma list_device_sessions_trace dd w :
  trace (list_device_sessions dd w) = [Exec (listing_command dd)].
Proof.
  unfold list_device_sessions. prog. rewrite run_checked_trace.
  by destruct (value (run_checked _ _ _)); prog.
Qed.

Lemma list_device_sessions_ok dd w :
  returncode (os_run (listing_command dd) true w).1 = 0%Z →
  value (list_device_sessions dd w) =
  Ok (parse_sessions (stdout (os_run (listing_command dd) true w).1)).
Proof.
  intros Hrc. unfold list_device_sessions. prog.
  by rewrite run_checked_ok by done.
Qed.

Lemma list_device_sessions_failed dd w :
  returncode (os_run (listing_command dd) true w).1 ≠ 0%Z →
  ∃ msg, value (list_device_sessions dd w) = Raise msg.
Proof.
  intros Hrc. unfold list_device_sessions. prog.
  destruct (run_checked_raise (listing_command dd) true w Hrc) as [msg Hmsg].
  fold (listing_command dd). rewrite Hmsg. prog. eauto.
Qed.

(** The device sessions are in ascending order. *)
Lemma parse_sessions_sorted output :
  StronglySorted pystr_le (parse_sessions output).
Proof. apply sorted_StronglySorted. Qed.

Lemma list_device_sessions_sorted dd w ds :
  value (list_device_sessions dd w) = Ok ds → StronglySorted pystr_le ds.
Proof.
  unfold list_device_sessions. prog.
  destruct (value (run_checked _ _ _)); prog; [|done].
  intros [= <-]. apply parse_sessions_sorted.
Qed.

(** [main] step by step. *)
Lemma main_run args w :
  let ld := resolve (local_dir args) w in
  let pre := preflight (mkdir ld w) in
  let ls := list_device_sessions (device_dir args) (world pre) in
  let report :=
    sync args ld (match value ls with Ok ds => ds | Raise _ => [] end) (world ls) in
  value (main args w) =
    match value pre with
    | Raise _ => 1%Z
    | Ok _ =>
        match value ls with
        | Raise _ => 1%Z
        | Ok [] => 0%Z
        | Ok (_ :: _) =>
            if truthy (pull_failed (value report)) || truthy (delete_failed (value report))
            then 1%Z else 0%Z
        end
    end
  ∧ commands (trace (main args w)) =
    commands (trace pre) ++
    match value pre with
    | Raise _ => []
    | Ok _ =>
        listing_command (device_dir args) ::
        match value ls with
        | Ok (_ :: _) => commands (trace report)
        | _ => []
        end
    end.
Proof.
  intros ld pre ls report. unfold main. prog. fold ld. fold pre.
  destruct (value pre) as [serial|exc]; prog.
  - rewrite list_device_sessions_trace. fold ls.
    destruct (value ls) as [[|s ds]|exc] eqn:Hls; prog; [done| |done].
    subst report. cbn [truthy]. prog.
    destruct (_ || _); prog; by rewrite app_nil_r.
  - by rewrite app_nil_r.
Qed.

Lemma preflight_dry_run_lines w : dry_run_lines (trace (preflight w)) = [].
Proof.
  rewrite preflight_run. destruct (which (py "adb") w); [|done].
  by rewrite ensure_device_connected_trace.
Qed.

(** The lines of a dry run of [main] are those of its two phases. *)
Lemma main_dry_run_lines args w :
  let ld := resolve (local_dir args) w in
  let pre := preflight (mkdir ld w) in
  let ls := list_device_sessions (device_dir args) (world pre) in
  let report :=
    sync args ld (match value ls with Ok ds => ds | Raise _ => [] end) (world ls) in
  dry_run_lines (trace (main args w)) =
  match value pre, value ls with
  | Ok _, Ok (_ :: _) => dry_run_lines (trace report)
  | _, _ => []
  end.
Proof.
  intros ld pre ls report. unfold main. prog. fold ld. fold pre.
  rewrite !dry_run_lines_app. unfold pre at 1. rewrite preflight_dry_run_lines.
  destruct (value pre) as [serial|exc]; prog.
  - rewrite !dry_run_lines_out by done.
    rewrite dry_run_lines_app, list_device_sessions_trace, dry_run_lines_exec.
    fold ls. cbn [dry_run_lines omap list_omap app].
    destruct (value ls) as [[|s ds]|exc] eqn:Hls; cbn [truthy]; prog.
    + by rewrite dry_run_lines_literal.
    + subst report. rewrite dry_run_lines_app.
      destruct (_ || _); prog; by rewrite app_nil_r.
    + by rewrite dry_run_lines_err.
  - by rewrite dry_run_lines_err.
Qed.
End Orchestrator.

(** ** Facts on counting *)

Lemma occurrences_Permutation x l k : l ≡ₚ k → occurrences x l = occurrences x k.
Proof. intros H. unfold occurrences. by rewrite H. Qed.

Lemma occurrences_filter (P : pystr → Prop) `{!∀ y, Decision (P y)} x l :
  occurrences x (filter P l) = if decide (P x) then occurrences x l else 0%nat.
Proof.
  unfold occurrences. induction l as [|y l IH].
  - by destruct (decide (P x)).
  - rewrite !(filter_cons _ y).
    destruct (decide (P y)) as [Hy|Hy], (decide (y = x)) as [->|Hne];
      rewrite ?filter_cons, ?decide_True, ?(decide_False (P:=y = x)) by done;
      cbn [length]; rewrite IH; by destruct (decide (P x)).
Qed.

Lemma occurrences_fmap (f : pystr → pystr) x l :
  occurrences x (f <$> l) = length (filter (λ y, f y = x) l).
Proof.
  unfold occurrences. induction l as [|y l IH]; [done|].
  rewrite fmap_cons, !filter_cons.
  destruct (decide (f y = x)); cbn [length]; by rewrite IH.
Qed.

Lemma foldl_keep_session acc raws :
  foldl keep_session acc raws =
  acc ++ filter (λ n, fullmatch SESSION_PATTERN n = true) (line_name <$> raws).
Proof.
  revert acc. induction raws as [|raw raws IH]; intros acc.
  - by rewrite app_nil_r.
  - cbn [foldl]. rewrite IH, fmap_cons, filter_cons. unfold keep_session.
    destruct (fullmatch SESSION_PATTERN (line_name raw)) eqn:Hm.
    + rewrite decide_True by done. by rewrite <- app_assoc.
    + by rewrite decide_False by done.
Qed.

(** A valid name is in the device sessions as often as it is on a line
    of the listing. *)
Lemma occurrences_parse_sessions name output :
  fullmatch SESSION_PATTERN name = true →
  occurrences name (parse_sessions output) =
  length (filter (λ raw, line_name raw = name) (splitlines output)).
Proof.
  intros Hname. unfold parse_sessions.
  rewrite (occurrences_Permutation _ _ _ (sorted_Permutation _)).
  rewrite foldl_keep_session. cbn [app].
  rewrite occurrences_filter, decide_True by done.
  apply occurrences_fmap.
Qed.

(** ** The properties of the specification *)

Section Claims.
Context {os : OS}.

Implicit Types (w : World) (args : Args) (ld : Path).

(** Replaces the report of [sync] by its fields. *)
Ltac report args ld ds w :=
  let H := fresh in
  pose proof (sync_run args ld ds w) as H; cbv zeta in H;
  destruct H as (-> & _);
  cbn [local_before new_sessions old_sessions pulled_ok pull_failed
       delete_candidates deleted_ok delete_failed].

Lemma elem_of_new_sessions args ld ds w s :
  s ∈ new_sessions (value (sync args ld ds w)) ↔
  s ∈ ds ∧ s ∉ local_before (value (sync args ld ds w)).
Proof.
  report args ld ds w.
  by rewrite list_elem_of_filter, (comm and).
Qed.

Lemma elem_of_old_sessions args ld ds w s :
  s ∈ old_sessions (value (sync args ld ds w)) ↔
  s ∈ ds ∧ s ∈ local_before (value (sync args ld ds w)).
Proof.
  report args ld ds w.
  by rewrite list_elem_of_filter, (comm and).
Qed.

Lemma sync_plan args ld ds w :
  let o := value (sync args ld ds w) in
  new_sessions o = filter (λ s, s ∉ local_before o) ds
  ∧ old_sessions o = filter (λ s, s ∈ local_before o) ds.
Proof. split; by report args ld ds w. Qed.

(** What the pull phase of [sync] leaves in the report. *)
Lemma sync_pulled args ld ds w :
  let o := value (sync args ld ds w) in
  sublist (pulled_ok o) (new_sessions o)
  ∧ sublist (pull_failed o) (new_sessions o)
  ∧ pulled_ok o ++ pull_failed o ≡ₚ new_sessions o
  ∧ delete_candidates o = candidates_of args (old_sessions o) (pulled_ok o).
Proof.
  report args ld ds w.
  destruct (pull_loop_split args ld
              (filter (λ s, s ∉ value (list_local_sessions ld w)) ds) [] [] w)
    as (ok & failed & -> & Hok & Hfailed & Hperm).
  by cbn [fst snd app].
Qed.


(** C2. The planner splits the listing in two: [new_sessions] is the
    listing without the sessions of [local_before], [old_sessions] is
    the listing within [local_before]; together they are the listing
    and they share no session. *)
Theorem C2_partition args ld ds w :
  let o := value (sync args ld ds w) in
  new_sessions o = filter (λ s, s ∉ local_before o) ds
  ∧ old_sessions o = filter (λ s, s ∈ local_before o) ds
  ∧ list_to_set (new_sessions o) =@{gset pystr} list_to_set ds ∖ local_before o
  ∧ list_to_set (old_sessions o) =@{gset pystr} list_to_set ds ∩ local_before o
  ∧ list_to_set (new_sessions o) ∪ list_to_set (old_sessions o)
    =@{gset pystr} list_to_set ds
  ∧ list_to_set (new_sessions o) ∩ list_to_set (old_sessions o) =@{gset pystr} ∅.
Proof.
  intros o.
  assert (Hnew : ∀ s, s ∈ new_sessions o ↔ s ∈ ds ∧ s ∉ local_before o)
    by apply elem_of_new_sessions.
  assert (Hold : ∀ s, s ∈ old_sessions o ↔ s ∈ ds ∧ s ∈ local_before o)
    by apply elem_of_old_sessions.
  destruct (sync_plan args ld ds w) as [Hn Ho].
  split_and!; [done..| | | |].
  - apply set_eq. intros s. rewrite elem_of_list_to_set, Hnew. set_solver.
  - apply set_eq. intros s. rewrite elem_of_list_to_set, Hold. set_solver.
  - apply set_eq. intros s.
    rewrite elem_of_union, !elem_of_list_to_set, Hnew, Hold.
    destruct (decide (s ∈ local_before o)); tauto.
  - apply set_eq. intros s.
    rewrite elem_of_intersection, !elem_of_list_to_set, Hnew, Hold.
    set_solver.
Qed.

(** C7. With [--no-delete] there is no deletion candidate, whatever
    the listing, the local inventory, the pull results and the other
    flags; with [--delete-old-only] and without [--no-delete] the
    candidates are the old sessions, whatever was pulled. *)
Theorem C7_delete_policy args ld ds w :
  let o := value (sync args ld ds w) in
  (no_delete args = true → delete_candidates o = [])
  ∧ (no_delete args = false → delete_old_only args = true →
     delete_candidates o = old_sessions o).
Proof.
  intros o. destruct (sync_pulled args ld ds w) as (_ & _ & _ & Hcands).
  fold o in Hcands. rewrite Hcands. unfold candidates_of.
  split.
  - by intros ->.
  - by intros -> ->.
Qed.

(** C8. Outside dry-run mode [pull_session] reports success exactly
    when [adb pull] exits with status zero and the directory
    [local_dir/session] exists afterwards; the command is run once.
    In dry-run mode it reports success and runs nothing. *)
Theorem C8_pull_session_success s dd ld dry w :
  let run := os_run (pull_command s dd ld) false w in
  (value (pull_session s dd ld dry w) = true ↔
     dry = true
     ∨ (returncode run.1 = 0%Z ∧ path_is_dir (path_div ld s) run.2 = true))
  ∧ commands (trace (pull_session s dd ld dry w)) =
      (if dry then [] else [pull_command s dd ld])
  ∧ world (pull_session s dd ld dry w) = (if dry then w else run.2).
Proof.
  intros run. rewrite pull_session_value, pull_session_commands, pull_session_world.
  fold run. split_and!; [|done..].
  rewrite orb_true_iff, andb_true_iff, bool_decide_eq_true. tauto.
Qed.

Lemma pull_loop_dry args ld ss ok failed w :
  dry_run args = true →
  value (pull_loop args ld ss ok failed w) = (ok ++ ss, failed).
Proof.
  intros Hdry. revert ok failed w. induction ss as [|s ss IH]; intros ok failed w.
  - by rewrite app_nil_r.
  - cbn [pull_loop]. prog. rewrite pull_session_value, Hdry. simpl.
    by rewrite IH, <- app_assoc.
Qed.

(** C9. In dry-run mode [pull_session] and [delete_session] report
    success whatever the session and the world, so no session is in
    [pull_failed] or [delete_failed]; a dry run in which the checks
    pass and the listing command succeeds exits with status 0. *)
Theorem C9_dry_run args w :
  dry_run args = true →
  (∀ s ld w', value (pull_session s (device_dir args) ld (dry_run args) w') = true)
  ∧ (∀ s w', value (delete_session s (device_dir args) (dry_run args) w') = true)
  ∧ (∀ ld ds w', pull_failed (value (sync args ld ds w')) = []
                 ∧ delete_failed (value (sync args ld ds w')) = [])
  ∧ (let pre := preflight (mkdir (resolve (local_dir args) w) w) in
     ∀ serial, value pre = Ok serial →
     returncode (os_run (listing_command (device_dir args)) true (world pre)).1 = 0%Z →
     value (main args w) = 0%Z).
Proof.
  intros Hdry.
  assert (Hsync : ∀ ld ds w', pull_failed (value (sync args ld ds w')) = []
                 ∧ delete_failed (value (sync args ld ds w')) = []).
  { intros ld ds w'. report args ld ds w'.
    by rewrite pull_loop_dry, delete_loop_dry. }
  split_and!; [| |done|].
  - intros s ld w'. by rewrite pull_session_value, Hdry.
  - intros s w'. by rewrite delete_session_value, Hdry.
  - intros pre serial Hpre Hrc.
    destruct (main_run args w) as [-> _]. fold pre. rewrite Hpre.
    rewrite list_device_sessions_ok by done.
    destruct (parse_sessions _) as [|s ds]; [done|].
    by destruct (Hsync (resolve (local_dir args) w) (s :: ds)
                   (world (list_device_sessions (device_dir args) (world pre))))
      as [-> ->].
Qed.

Lemma main_preflight_failed args w exc :
  let pre := preflight (mkdir (resolve (local_dir args) w) w) in
  value pre = Raise exc →
  value (main args w) = 1%Z
  ∧ trace (main args w) = trace pre ++ [Err (py "[ERROR] " ++ exc)].
Proof.
  intros pre Hpre. unfold main. prog. fold pre. rewrite Hpre. by prog.
Qed.

(** C6. The device check passes exactly when [adb devices] lists at
    least one device in state [device], and it yields the first such
    serial.  With no such device the run is fatal (status 1), no
    listing, pull or delete is run, and the message tells an
    unauthorised device from no device at all. *)
Theorem C6_device_preflight args w :
  let w1 := mkdir (resolve (local_dir args) w) w in
  let proc := (os_run devices_command true w1).1 in
  let connected := (parse_devices (stdout proc)).1 in
  let unauthorized := (parse_devices (stdout proc)).2 in
  which (py "adb") w1 = true →
  returncode proc = 0%Z →
  (∀ serial rest, connected = serial :: rest → value (preflight w1) = Ok serial)
  ∧ (connected = [] → unauthorized = [] →
     value (main args w) = 1%Z
     ∧ trace (main args w) =
         [Exec devices_command; Err (py "[ERROR] " ++ no_device_message)])
  ∧ (connected = [] → unauthorized ≠ [] →
     value (main args w) = 1%Z
     ∧ trace (main args w) =
         [Exec devices_command; Err (py "[ERROR] " ++ unauthorized_message)])
  ∧ unauthorized_message ≠ no_device_message.
Proof.
  intros w1 proc connected unauthorized Hadb Hrc.
  assert (Hpre : preflight w1 = ensure_device_connected w1)
    by (by rewrite preflight_run, Hadb).
  pose proof (ensure_device_connected_value w1 Hrc) as Hval.
  pose proof (ensure_device_connected_trace w1) as Htrace.
  fold proc in Hval. subst connected unauthorized.
  destruct (parse_devices (stdout proc)) as [con unauth]. cbn [fst snd].
  split_and!.
  - intros serial rest ->. by rewrite Hpre, Hval.
  - intros -> ->.
    destruct (main_preflight_failed args w no_device_message) as [-> ->];
      fold w1; rewrite Hpre; [done|]. by rewrite Htrace.
  - intros -> Hne. destruct unauth as [|u unauth]; [done|].
    destruct (main_preflight_failed args w unauthorized_message) as [-> ->];
      fold w1; rewrite Hpre; [done|]. by rewrite Htrace.
  - by vm_compute.
Qed.

(** C5. The exit status of [main]: 1 when [adb] is missing, when no
    device is connected and when the listing command fails; 0, with no
    pull and no delete, when the listing holds no valid session;
    otherwise 1 if [pull_failed] or [delete_failed] is not empty and 0
    if both are. *)
Theorem C5_exit_status args w :
  let ld := resolve (local_dir args) w in
  let w1 := mkdir ld w in
  let pre := preflight w1 in
  let listing := (os_run (listing_command (device_dir args)) true (world pre)).1 in
  let ls := list_device_sessions (device_dir args) (world pre) in
  (which (py "adb") w1 = false →
     value (main args w) = 1%Z ∧ commands (trace (main args w)) = [])
  ∧ ((parse_devices (stdout (os_run devices_command true w1).1)).1 = [] →
     value (main args w) = 1%Z)
  ∧ (∀ exc, value pre = Raise exc → value (main args w) = 1%Z)
  ∧ (∀ serial, value pre = Ok serial →
     (returncode listing ≠ 0%Z → value (main args w) = 1%Z)
     ∧ (returncode listing = 0%Z → parse_sessions (stdout listing) = [] →
        value (main args w) = 0%Z
        ∧ commands (trace (main args w)) =
            [devices_command; listing_command (device_dir args)])
     ∧ (∀ ds, value ls = Ok ds → ds ≠ [] →
        let o := value (sync args ld ds (world ls)) in
        value (main args w) =
          if decide (pull_failed o = [] ∧ delete_failed o = []) then 0%Z else 1%Z)).
Proof.
  intros ld w1 pre listing ls.
  destruct (main_run args w) as [Hvalue Hcommands].
  fold ld w1 pre ls in Hvalue, Hcommands.
  assert (Hraise : ∀ exc, value pre = Raise exc → value (main args w) = 1%Z).
  { intros exc Hpre. by rewrite Hvalue, Hpre. }
  split_and!; [| |done|].
  - intros Hadb. rewrite Hvalue, Hcommands. unfold pre.
    by rewrite preflight_run, Hadb.
  - intros Hnone. unfold pre in Hraise. rewrite preflight_run in Hraise.
    destruct (which (py "adb") w1); [|by eapply Hraise].
    destruct (decide (returncode (os_run devices_command true w1).1 = 0%Z)) as [Hrc|Hrc].
    + pose proof (ensure_device_connected_value w1 Hrc) as Hval.
      destruct (parse_devices _) as [con unauth]. cbn [fst] in Hnone. subst con.
      destruct unauth; eauto.
    + destruct (ensure_device_connected_failed w1 Hrc) as [msg Hmsg]. eauto.
  - intros serial Hpre. rewrite Hpre in Hvalue, Hcommands. split_and!.
    + intros Hrc. destruct (list_device_sessions_failed _ _ Hrc) as [msg Hmsg].
      fold ls in Hmsg. by rewrite Hvalue, Hmsg.
    + intros Hrc Hempty. rewrite Hvalue, Hcommands.
      unfold ls. rewrite list_device_sessions_ok by done. fold listing.
      rewrite Hempty. split; [done|].
      unfold pre. rewrite preflight_run.
      destruct (which (py "adb") w1) eqn:Hadb.
      * by rewrite ensure_device_connected_trace.
      * unfold pre in Hpre. by rewrite preflight_run, Hadb in Hpre.
    + intros ds Hls Hne o. rewrite Hvalue, Hls.
      destruct ds as [|s ds]; [done|]. fold o.
      destruct (pull_failed o), (delete_failed o); cbn [truthy orb];
        by (rewrite decide_True by done) || (rewrite decide_False by (by intros [??])).
Qed.

Lemma preflight_commands w :
  commands (trace (preflight w)) =
  if which (py "adb") w then [devices_command] else [].
Proof.
  rewrite preflight_run. destruct (which (py "adb") w); [|done].
  by rewrite ensure_device_connected_trace.
Qed.

Lemma preflight_ok_commands w serial :
  value (preflight w) = Ok serial →
  commands (trace (preflight w)) = [devices_command].
Proof.
  rewrite preflight_commands, preflight_run.
  by destruct (which (py "adb") w).
Qed.

(** The commands of the two phases: one pull for each new session,
    then one removal for each candidate. *)
Lemma sync_commands args ld ds w :
  let o := value (sync args ld ds w) in
  commands (trace (sync args ld ds w)) =
  if dry_run args then []
  else ((λ s, pull_command s (device_dir args) ld) <$> new_sessions o)
         ++ ((λ s, delete_command s (device_dir args)) <$> delete_candidates o).
Proof.
  pose proof (sync_run args ld ds w) as H. cbv zeta in H.
  destruct H as (-> & -> & _).
  cbn [new_sessions delete_candidates].
  rewrite pull_loop_commands, delete_loop_commands.
  by destruct (dry_run args).
Qed.

(** The order of the plan when the listing is in ascending order: the
    new sessions, the old sessions and the pulled sessions ascend. *)
Lemma sync_order args ld ds w :
  StronglySorted pystr_le ds →
  let o := value (sync args ld ds w) in
  StronglySorted pystr_le (new_sessions o)
  ∧ StronglySorted pystr_le (old_sessions o)
  ∧ StronglySorted pystr_le (pulled_ok o).
Proof.
  intros Hds o.
  destruct (sync_pulled args ld ds w) as (Hok & _).
  fold o in Hok.
  assert (Hnew : StronglySorted pystr_le (new_sessions o)).
  { unfold o. report args ld ds w.
    eapply StronglySorted_sublist; [apply sublist_filter|done]. }
  assert (Hold : StronglySorted pystr_le (old_sessions o)).
  { unfold o. report args ld ds w.
    eapply StronglySorted_sublist; [apply sublist_filter|done]. }
  split_and!; [done..|].
  by eapply StronglySorted_sublist.
Qed.

(** The candidates by policy.  No session is both old and pulled, so
    under the default policy the keys of [old_sessions + pulled_ok] are
    the old sessions followed by the pulled ones, each name once. *)
Lemma sync_candidates args ld ds w :
  let o := value (sync args ld ds w) in
  delete_candidates o =
  if no_delete args then []
  else if delete_old_only args then old_sessions o
  else dict_fromkeys (old_sessions o) ++ dict_fromkeys (pulled_ok o).
Proof.
  intros o.
  destruct (sync_pulled args ld ds w) as (Hok & _ & _ & Hcands).
  fold o in Hok, Hcands.
  rewrite Hcands. unfold candidates_of.
  destruct (no_delete args); [done|].
  destruct (delete_old_only args); [done|].
  apply dict_fromkeys_app_disjoint.
  intros s Hold Hs.
  assert (Hnew : s ∈ new_sessions o) by (by eapply elem_of_sublist).
  apply elem_of_old_sessions in Hold as [_ Hin].
  apply elem_of_new_sessions in Hnew as [_ Hnot].
  done.
Qed.

(** With nothing listed there is nothing to pull and nothing to remove. *)
Lemma sync_nothing_listed args ld w :
  let o := value (sync args ld [] w) in
  new_sessions o = [] ∧ delete_candidates o = [].
Proof.
  intros o.
  destruct (sync_plan args ld [] w) as [Hnew Hold].
  destruct (sync_pulled args ld [] w) as (Hok & _ & _ & Hcands).
  fold o in Hnew, Hold, Hok, Hcands.
  rewrite Hnew in Hok. apply sublist_nil_r in Hok.
  split; [done|].
  rewrite Hcands, Hold, Hok. unfold candidates_of.
  by destruct (no_delete args), (delete_old_only args).
Qed.

(** C4. In every run the commands are: the checks ([adb devices] and
    the listing, as far as the run gets), then one pull for each entry
    of [new_sessions] of the run's report, in that order, then one
    removal for each entry of its [delete_candidates], in that order; no
    pull follows a removal.  [new_sessions] is in ascending order.
    [delete_candidates] is empty with [--no-delete], is [old_sessions]
    with [--delete-old-only], and under the default policy is the old
    sessions (each name once) followed by the successfully pulled
    sessions (each name once): both parts ascend, the old part comes
    first.  With [--delete-old-only] the whole candidate list ascends.
    A dry run prints its lines for the same sessions in the same order
    and runs the checks only.  (A run that stops at a check or lists no
    session has an empty plan: [ds] is [[]] there.) *)
Theorem C4_phase_order args w :
  let ld := resolve (local_dir args) w in
  let dd := device_dir args in
  let pre := preflight (mkdir ld w) in
  let ls := list_device_sessions dd (world pre) in
  let ds := match value pre, value ls with Ok _, Ok ds => ds | _, _ => [] end in
  let o := value (sync args ld ds (world ls)) in
  let checks :=
    if which (py "adb") (mkdir ld w)
    then match value pre with
         | Ok _ => [devices_command; listing_command dd]
         | Raise _ => [devices_command]
         end
    else [] in
  commands (trace (main args w)) =
    checks ++
    (if dry_run args then []
     else ((λ s, pull_command s dd ld) <$> new_sessions o)
          ++ ((λ s, delete_command s dd) <$> delete_candidates o))
  ∧ dry_run_lines (trace (main args w)) =
      (if dry_run args
       then ((λ s, pull_notice s dd ld) <$> new_sessions o)
            ++ ((λ s, delete_notice s dd) <$> delete_candidates o)
       else [])
  ∧ StronglySorted pystr_le (new_sessions o)
  ∧ delete_candidates o =
      (if no_delete args then []
       else if delete_old_only args then old_sessions o
       else dict_fromkeys (old_sessions o) ++ dict_fromkeys (pulled_ok o))
  ∧ StronglySorted pystr_le (old_sessions o)
  ∧ sublist (pulled_ok o) (new_sessions o)
  ∧ StronglySorted pystr_le (pulled_ok o)
  ∧ StronglySorted pystr_le (dict_fromkeys (old_sessions o))
  ∧ StronglySorted pystr_le (dict_fromkeys (pulled_ok o))
  ∧ (delete_old_only args = true →
     StronglySorted pystr_le (delete_candidates o)).
Proof.
  intros ld dd pre ls ds o checks.
  assert (Hsorted : StronglySorted pystr_le ds).
  { unfold ds. destruct (value pre); [|constructor].
    destruct (value ls) as [l|exc] eqn:Hls; [|constructor].
    by eapply list_device_sessions_sorted. }
  destruct (sync_order args ld ds (world ls) Hsorted) as (Hnew & Hold & Hok).
  pose proof (sync_candidates args ld ds (world ls)) as Hcands.
  destruct (sync_pulled args ld ds (world ls)) as (Hsub & _).
  fold o in Hnew, Hold, Hok, Hcands, Hsub.
  assert (Hphases :
    commands (trace (main args w)) =
      checks ++
      (if dry_run args then []
       else ((λ s, pull_command s dd ld) <$> new_sessions o)
            ++ ((λ s, delete_command s dd) <$> delete_candidates o))
    ∧ dry_run_lines (trace (main args w)) =
        (if dry_run args
         then ((λ s, pull_notice s dd ld) <$> new_sessions o)
              ++ ((λ s, delete_notice s dd) <$> delete_candidates o)
         else [])).
  { clear Hsorted Hnew Hold Hok Hcands Hsub.
    destruct (main_run args w) as [_ Hcommands].
    pose proof (main_dry_run_lines args w) as Hlines.
    cbv zeta in Hcommands, Hlines.
    fold ld dd in Hcommands, Hlines. fold pre in Hcommands, Hlines.
    fold ls in Hcommands, Hlines.
    rewrite Hcommands, Hlines. clear Hcommands Hlines.
    subst checks o ds.
    pose proof (preflight_commands (mkdir ld w)) as Hpc. fold pre in Hpc.
    destruct (sync_nothing_listed args ld (world ls)) as [Hn Hc].
    destruct (value pre) as [serial|exc] eqn:Hpre.
    2:{ rewrite Hpc, Hn, Hc.
        by destruct (which _ _), (dry_run args). }
    assert (Hadb : which (py "adb") (mkdir ld w) = true).
    { destruct (which (py "adb") (mkdir ld w)) eqn:Hwhich; [done|].
      unfold pre in Hpre. by rewrite preflight_run, Hwhich in Hpre. }
    rewrite Hadb in Hpc |- *. rewrite Hpc.
    destruct (value ls) as [[|s l]|exc] eqn:Hls.
    - rewrite Hn, Hc. by destruct (dry_run args).
    - by rewrite sync_commands, sync_dry_run_lines.
    - rewrite Hn, Hc. by destruct (dry_run args). }
  destruct Hphases as [Hcommands Hlines].
  split_and!; try done.
  - eapply StronglySorted_sublist; [apply dict_fromkeys_sublist|done].
  - eapply StronglySorted_sublist; [apply dict_fromkeys_sublist|done].
  - intros Hoo. rewrite Hcands, Hoo.
    destruct (no_delete args); [constructor|done].
Qed.

(** C10. A valid name that is on [k] lines of the listing is [k] times
    in the device sessions; it is then [k] times in [new_sessions] when
    it is not in the local inventory, and [k] times in [old_sessions]
    and not in [new_sessions] when it is.  There is one pull for
    each entry of [new_sessions]: a command outside dry-run mode, a line
    in dry-run mode.  Under the default policy no name is twice among
    the deletion candidates. *)
Theorem C10_duplicate_names args ld w output name :
  fullmatch SESSION_PATTERN name = true →
  let k := length (filter (λ raw, line_name raw = name) (splitlines output)) in
  let ds := parse_sessions output in
  let o := value (sync args ld ds w) in
  occurrences name ds = k
  ∧ (name ∉ local_before o →
     occurrences name (new_sessions o) = k ∧ occurrences name (old_sessions o) = 0%nat)
  ∧ (name ∈ local_before o →
     occurrences name (new_sessions o) = 0%nat ∧ occurrences name (old_sessions o) = k)
  ∧ (dry_run args = false →
     commands (trace (sync args ld ds w)) =
       ((λ s, pull_command s (device_dir args) ld) <$> new_sessions o)
       ++ ((λ s, delete_command s (device_dir args)) <$> delete_candidates o))
  ∧ (dry_run args = true →
     dry_run_lines (trace (sync args ld ds w)) =
       ((λ s, pull_notice s (device_dir args) ld) <$> new_sessions o)
       ++ ((λ s, delete_notice s (device_dir args)) <$> delete_candidates o))
  ∧ (no_delete args = false → delete_old_only args = false →
     NoDup (delete_candidates o)).
Proof.
  intros Hname k ds o.
  assert (Hk : occurrences name ds = k) by by apply occurrences_parse_sessions.
  destruct (sync_plan args ld ds w) as [Hnew Hold]. fold o in Hnew, Hold.
  split_and!; [done|..].
  - intros Hlb. rewrite Hnew, Hold, !occurrences_filter.
    by rewrite decide_True, decide_False by done.
  - intros Hlb. rewrite Hnew, Hold, !occurrences_filter.
    rewrite decide_False, decide_True by (done || by intros []). done.
  - intros Hdry. rewrite sync_commands. fold o. by rewrite Hdry.
  - intros Hdry. rewrite sync_dry_run_lines. fold o. by rewrite Hdry.
  - intros Hnd Hoo.
    destruct (sync_pulled args ld ds w) as (_ & _ & _ & Hcands).
    fold o in Hcands. rewrite Hcands. unfold candidates_of. rewrite Hnd, Hoo.
    apply dict_fromkeys_NoDup.
Qed.
End Claims.

(** C3. [SESSION_PATTERN.fullmatch] accepts a string exactly when it is
    eight decimal digits, an underscore and six decimal digits, with
    nothing before or after, where a decimal digit is any character of
    the class [\d] ([unicode_decimal]).  Every name of the specification
    (ASCII digits) is accepted, and on strings of ASCII characters the
    two rules agree. *)
Theorem C3_session_name_rule (s : pystr) :
  (fullmatch SESSION_PATTERN s = true ↔
     ∃ d t, s = d ++ ord "_" :: t ∧ length d = 8%nat ∧ length t = 6%nat
            ∧ forallb unicode_decimal d = true ∧ forallb unicode_decimal t = true)
  ∧ (spec_isValidSessionId s = true → fullmatch SESSION_PATTERN s = true)
  ∧ (Forall (λ c, c < 128) s → fullmatch SESSION_PATTERN s = spec_isValidSessionId s).
Proof.
  assert (Hascii : ∀ l, forallb is_ascii_digit l = true → Forall (λ c, c < 128) l).
  { intros l Hl. apply Forall_forall. intros c Hc.
    apply list_elem_of_In in Hc.
    rewrite forallb_forall in Hl. specialize (Hl c Hc).
    unfold is_ascii_digit in Hl. apply andb_prop in Hl as [_ Hl].
    apply N.leb_le in Hl. lia. }
  split_and!.
  - apply fullmatch_session.
  - intros (d & t & -> & Hd & Ht & Hdd & Htd)%spec_isValidSessionId_shape.
    apply fullmatch_session. exists d, t.
    rewrite !forallb_digit_ascii by auto. done.
  - intros Hs. apply eq_true_iff_eq.
    rewrite fullmatch_session, spec_isValidSessionId_shape.
    split; intros (d & t & -> & Hd & Ht & Hdd & Htd); exists d, t;
      apply Forall_app in Hs as [Hs1 Hs2]; apply Forall_cons in Hs2 as [_ Hs2];
      rewrite ?forallb_digit_ascii in * by done; done.
Qed.

(** ** Runs on the scripted operating system *)

(** Settles a closed decidable proposition by evaluation. *)
Ltac decided := apply (bool_decide_unpack _); vm_compute; exact I.





(** Fourteen Arabic-Indic digits around an underscore: accepted by the
    pattern, although no character but the underscore is ASCII. *)
Lemma C3_counterexample :
  let s := replicate 8 1632 ++ [ord "_"] ++ replicate 6 1632 in
  fullmatch SESSION_PATTERN s = true
  ∧ spec_isValidSessionId s = false
  ∧ is_ascii_digit 1632 = false.
Proof. by vm_compute. Qed.

Lemma C3_witness :
  fullmatch SESSION_PATTERN (py "20240101_120000") = true
  ∧ fullmatch SESSION_PATTERN (py "20240101_120000")
    = spec_isValidSessionId (py "20240101_120000").
Proof.
  destruct (C3_session_name_rule (py "20240101_120000")) as (_ & Hspec & Hascii).
  split.
  - apply Hspec. by vm_compute.
  - apply Hascii. decided.
Defined.

(** The second day is on the disk, the first is new: the first day is
    pulled, then the second day is removed before the first. *)
Lemma C4_counterexample :
  let dd := py "/sdcard/rec" in
  let os := fake_os (script (lines [day1; day2])) in
  commands (trace (@main os (fake_args false false false) [py "/data/20240102_100000"]))
  = [devices_command; listing_command dd;
     @pull_command os day1 dd (py "/data");
     delete_command day2 dd; delete_command day1 dd]
  ∧ pystr_le day1 day2 ∧ ¬ pystr_le day2 day1.
Proof. split_and!; [by vm_compute|by vm_compute|decided]. Qed.

(** Scenario A with a failing removal: status 1. *)
Lemma C5_witness :
  let os := fake_os {| sc_adb := true;
     sc_devices := printed (devices_output [(py "2G0YC1ZF8B07XY", py "device")]);
     sc_listing := printed (lines [day1]);
     sc_pull_fails := []; sc_pull_noop := [];
     sc_rm_fails := [py "/sdcard/rec/20240101_100000"] |} in
  value (@main os (fake_args false false false) []) = 1%Z.
Proof.
  intros os.
  destruct (C5_exit_status (os := os) (fake_args false false false) [])
    as (_ & _ & _ & Hrun).
  destruct (Hrun (py "2G0YC1ZF8B07XY") eq_refl) as (_ & _ & Hfull).
  rewrite (Hfull [day1]); [by vm_compute|by vm_compute|done].
Defined.

(** Two authorised devices: the check passes and the run goes on. *)
Lemma C6_counterexample :
  let os := fake_os {| sc_adb := true;
     sc_devices := printed (devices_output [(py "2G0YC1ZF8B07XY", py "device");
                                            (py "1WMHH815PR0405", py "device")]);
     sc_listing := printed (lines [day1]);
     sc_pull_fails := []; sc_pull_noop := []; sc_rm_fails := [] |} in
  (parse_devices (stdout (@os_run os devices_command true []).1)).1
    = [py "2G0YC1ZF8B07XY"; py "1WMHH815PR0405"]
  ∧ value (@preflight os []) = Ok (py "2G0YC1ZF8B07XY")
  ∧ value (@main os (fake_args false false false) []) = 0%Z.
Proof. by vm_compute. Qed.

(** One unauthorised device: fatal, with the message for it, and only
    [adb devices] was run. *)
Lemma C6_witness :
  let os := fake_os {| sc_adb := true;
     sc_devices := printed (devices_output [(py "2G0YC1ZF8B07XY", py "unauthorized")]);
     sc_listing := printed (lines [day1]);
     sc_pull_fails := []; sc_pull_noop := []; sc_rm_fails := [] |} in
  value (@main os (fake_args false false false) []) = 1%Z
  ∧ trace (@main os (fake_args false false false) [])
    = [Exec devices_command; Err (py "[ERROR] " ++ unauthorized_message)].
Proof.
  intros os.
  destruct (C6_device_preflight (os := os) (fake_args false false false) []
              eq_refl eq_refl) as (_ & _ & Hunauth & _).
  apply Hunauth; by vm_compute.
Defined.

(** With [--delete-old-only] the pulled first day is no candidate. *)
Lemma C7_witness :
  let o := value (@sync (fake_os (script [])) (fake_args false false true)
                    (py "/data") [day1; day2]
                    [py "/data"; py "/data/20240102_100000"]) in
  pulled_ok o = [day1] ∧ old_sessions o = [day2]
  ∧ delete_candidates o = old_sessions o.
Proof.
  intros o. split_and!; [by vm_compute..|].
  by apply (C7_delete_policy (os := fake_os (script []))
              (fake_args false false true) (py "/data") [day1; day2]
              [py "/data"; py "/data/20240102_100000"]).
Defined.

(** A dry run on an empty disk: success without a command and without
    the directory. *)
Lemma C8_counterexample :
  let os := fake_os (script []) in
  let run := @pull_session os day1 (py "/sdcard/rec") (py "/data") true [] in
  value run = true
  ∧ commands (trace run) = []
  ∧ @path_is_dir os (@path_div os (py "/data") day1) (world run) = false.
Proof. by vm_compute. Qed.

(** A dry run whose listing command fails: the checks pass, status 1. *)
Lemma C9_counterexample :
  let os := fake_os {| sc_adb := true;
     sc_devices := printed (devices_output [(py "2G0YC1ZF8B07XY", py "device")]);
     sc_listing := exited 1;
     sc_pull_fails := []; sc_pull_noop := []; sc_rm_fails := [] |} in
  let args := fake_args true false false in
  dry_run args = true
  ∧ value (@preflight os (@mkdir os (@resolve os (local_dir args) []) []))
    = Ok (py "2G0YC1ZF8B07XY")
  ∧ value (@main os args []) = 1%Z.
Proof. by vm_compute. Qed.

(** A dry run on the flaky bridge: status 0. *)
Lemma C9_witness :
  value (@main (fake_os (flaky (lines [day1; day2]))) (fake_args true false false) [])
  = 0%Z.
Proof.
  destruct (C9_dry_run (os := fake_os (flaky (lines [day1; day2])))
              (fake_args true false false) [] eq_refl) as (_ & _ & _ & Hmain).
  by apply (Hmain (py "2G0YC1ZF8B07XY")).
Defined.

(** The first day twice on the listing and on the disk already: it is
    not in [new_sessions] and nothing is pulled. *)
Lemma C10_counterexample :
  let os := fake_os (script []) in
  let output := lines [day1; day1] in
  let run := @sync os (fake_args false false false) (py "/data")
               (parse_sessions output) [py "/data"; py "/data/20240101_100000"] in
  length (filter (λ raw, line_name raw = day1) (splitlines output)) = 2%nat
  ∧ parse_sessions output = [day1; day1]
  ∧ new_sessions (value run) = []
  ∧ commands (trace run) = [delete_command day1 (py "/sdcard/rec")].
Proof. by vm_compute. Qed.

(** The first day twice on the listing and not on the disk: two pulls,
    one removal. *)
Lemma C10_witness :
  let os := fake_os (script []) in
  let output := lines [day1; day1] in
  let run := @sync os (fake_args false false false) (py "/data")
               (parse_sessions output) [] in
  occurrences day1 (new_sessions (value run)) = 2%nat
  ∧ commands (trace run)
    = [@pull_command os day1 (py "/sdcard/rec") (py "/data");
       @pull_command os day1 (py "/sdcard/rec") (py "/data");
       delete_command day1 (py "/sdcard/rec")]
  ∧ NoDup (delete_candidates (value run)).
Proof.
  intros os output run.
  destruct (C10_duplicate_names (os := os) (fake_args false false false)
              (py "/data") [] output day1 eq_refl)
    as (_ & Hnew & _ & Hcommands & _ & Hnodup).
  split_and!.
  - destruct Hnew as [Hocc _]; [decided|].
    etransitivity; [exact Hocc|by vm_compute].
  - unfold run. rewrite Hcommands by done. by vm_compute.
  - by apply Hnodup.
Defined.

(** * Further properties

    Properties of the functions of the script beside the ones above:
    the parsers of the two listings, the inventory, the two phases and
    the runs of [main]. *)

(** ** Names and lines *)

Lemma unicode_decimal_range c :
  unicode_decimal c = true → ∃ r, r ∈ Nd_ranges ∧ r.1 ≤ c ≤ r.2.
Proof.
  unfold unicode_decimal. intros (r & Hr & Hin)%existsb_exists.
  exists r. split; [by apply list_elem_of_In|].
  unfold in_range in Hin. apply andb_prop in Hin as [H1 H2].
  apply N.leb_le in H1, H2. lia.
Qed.

(** The white space of [str.isspace] as inclusive ranges. *)
Lemma isspace_range c :
  isspace c = true →
  ∃ q, q ∈ [(9, 13); (28, 32); (133, 133); (160, 160); (5760, 5760);
            (8192, 8202); (8232, 8233); (8239, 8239); (8287, 8287);
            (12288, 12288)]
       ∧ q.1 ≤ c ≤ q.2.
Proof.
  unfold isspace. intros H.
  assert (Hc : 9 ≤ c ≤ 13 ∨ 28 ≤ c ≤ 32 ∨ c = 133 ∨ c = 160 ∨ c = 5760
               ∨ 8192 ≤ c ≤ 8202 ∨ 8232 ≤ c ≤ 8233 ∨ c = 8239 ∨ c = 8287
               ∨ c = 12288).
  { repeat (apply orb_prop in H as [H|H]);
      try (apply andb_prop in H as [H1 H2]; apply N.leb_le in H1, H2);
      try apply N.eqb_eq in H; lia. }
  assert (Hin : ∀ q : N * N, q.1 ≤ c ≤ q.2 →
            bool_decide (q ∈ [(9, 13); (28, 32); (133, 133); (160, 160);
                              (5760, 5760); (8192, 8202); (8232, 8233);
                              (8239, 8239); (8287, 8287); (12288, 12288)]) = true →
            ∃ q, q ∈ [(9, 13); (28, 32); (133, 133); (160, 160); (5760, 5760);
                      (8192, 8202); (8232, 8233); (8239, 8239); (8287, 8287);
                      (12288, 12288)] ∧ q.1 ≤ c ≤ q.2).
  { intros q Hq Hmem%bool_decide_eq_true. eauto. }
  destruct Hc as [Hc|[Hc|[Hc|[Hc|[Hc|[Hc|[Hc|[Hc|[Hc|Hc]]]]]]]]].
  - apply (Hin (9, 13)); [cbn; lia|by vm_compute].
  - apply (Hin (28, 32)); [cbn; lia|by vm_compute].
  - apply (Hin (133, 133)); [cbn; lia|by vm_compute].
  - apply (Hin (160, 160)); [cbn; lia|by vm_compute].
  - apply (Hin (5760, 5760)); [cbn; lia|by vm_compute].
  - apply (Hin (8192, 8202)); [cbn; lia|by vm_compute].
  - apply (Hin (8232, 8233)); [cbn; lia|by vm_compute].
  - apply (Hin (8239, 8239)); [cbn; lia|by vm_compute].
  - apply (Hin (8287, 8287)); [cbn; lia|by vm_compute].
  - apply (Hin (12288, 12288)); [cbn; lia|by vm_compute].
Qed.

Lemma decimal_not_space c : unicode_decimal c = true → isspace c = false.
Proof.
  intros (r & Hr & Hc)%unicode_decimal_range.
  destruct (isspace c) eqn:Hs; [|done].
  apply isspace_range in Hs as (q & Hq & Hc').
  assert (Hdisj : Forall (λ r : N * N, Forall (λ q : N * N, r.2 < q.1 ∨ q.2 < r.1)
            [(9, 13); (28, 32); (133, 133); (160, 160); (5760, 5760);
             (8192, 8202); (8232, 8233); (8239, 8239); (8287, 8287);
             (12288, 12288)]) Nd_ranges).
  { apply (bool_decide_unpack _). by vm_compute. }
  rewrite Forall_forall in Hdisj. specialize (Hdisj r Hr).
  rewrite Forall_forall in Hdisj. specialize (Hdisj q Hq). lia.
Qed.

Lemma decimal_ge_zero c : unicode_decimal c = true → 48 ≤ c.
Proof.
  intros (r & Hr & Hc)%unicode_decimal_range.
  assert (Hlow : Forall (λ r : N * N, 48 ≤ r.1) Nd_ranges).
  { apply (bool_decide_unpack _). by vm_compute. }
  rewrite Forall_forall in Hlow. specialize (Hlow r Hr). lia.
Qed.

Lemma lstrip_id s : Forall (λ c, isspace c = false) s → lstrip s = s.
Proof. destruct 1 as [|c s Hc _]; [done|]. cbn [lstrip]. by rewrite Hc. Qed.

Lemma strip_id s : Forall (λ c, isspace c = false) s → strip s = s.
Proof.
  intros Hs. unfold strip, rstrip. rewrite (lstrip_id s) by done.
  rewrite lstrip_id by (by apply Forall_reverse). apply reverse_involutive.
Qed.

Lemma str_replace_absent old new s : old ∉ s → str_replace old new s = s.
Proof.
  unfold str_replace. induction s as [|c s IH]; [done|].
  intros Hin. cbn. apply not_elem_of_cons in Hin as [Hne Hin].
  destruct (N.eqb_spec c old); [congruence|]. cbn. by rewrite IH.
Qed.

Lemma linebreak_is_space c : is_linebreak c = true → isspace c = true.
Proof.
  unfold is_linebreak, isspace.
  rewrite !orb_true_iff, !andb_true_iff, !N.leb_le, !N.eqb_eq. lia.
Qed.

Lemma splitlines_from_line cur line s :
  Forall (λ c, is_linebreak c = false) line →
  splitlines_from cur (line ++ s) = splitlines_from (reverse line ++ cur) s.
Proof.
  revert cur. induction line as [|c line IH]; intros cur Hline; [done|].
  apply Forall_cons in Hline as [Hc Hline].
  cbn [app splitlines_from]. rewrite Hc, IH by done.
  by rewrite reverse_cons, <- app_assoc.
Qed.

(** The lines of a text made of lines without line boundaries, each
    ended by a line feed or by a carriage return and a line feed. *)
Lemma splitlines_lines (eol : pystr) (names : list pystr) :
  eol = [10] ∨ eol = [13; 10] →
  Forall (Forall (λ c, is_linebreak c = false)) names →
  splitlines (names ≫= λ name, name ++ eol) = names.
Proof.
  intros Heol Hnames. unfold splitlines.
  induction Hnames as [|name names Hname _ IH]; [done|].
  cbn [mbind list_bind]. rewrite <- app_assoc, splitlines_from_line by done.
  rewrite app_nil_r.
  destruct Heol as [-> | ->]; cbn [app splitlines_from];
    change (is_linebreak 10) with true; change (is_linebreak 13) with true;
    cbn [andb N.eqb Pos.eqb]; rewrite reverse_involutive.
  - f_equal. destruct (names ≫= _) eqn:Hrest; [by rewrite <- IH|done].
  - by f_equal.
Qed.

Lemma fullmatch_no_break name :
  fullmatch SESSION_PATTERN name = true →
  Forall (λ c, is_linebreak c = false) name.
Proof.
  intros (d & t & -> & _ & _ & Hdd & Htd)%fullmatch_session.
  rewrite forallb_forall in Hdd, Htd.
  assert (Hdigit : ∀ c, unicode_decimal c = true → is_linebreak c = false).
  { intros c Hc%decimal_not_space.
    destruct (is_linebreak c) eqn:Hb; [|done].
    apply linebreak_is_space in Hb. congruence. }
  apply Forall_app. split; [|apply Forall_cons; split; [done|]];
    apply Forall_forall; intros c Hc%list_elem_of_In; auto.
Qed.

Lemma fullmatch_line_name name :
  fullmatch SESSION_PATTERN name = true → line_name name = name.
Proof.
  intros (d & t & -> & _ & _ & Hdd & Htd)%fullmatch_session.
  rewrite forallb_forall in Hdd, Htd.
  assert (Hns : Forall (λ c, isspace c = false) (d ++ ord "_" :: t)).
  { apply Forall_app. split; [|apply Forall_cons; split; [done|]];
      apply Forall_forall; intros c Hc%list_elem_of_In;
      apply decimal_not_space; auto. }
  unfold line_name. rewrite strip_id by done.
  apply str_replace_absent. intros Hin.
  rewrite Forall_forall in Hns. by specialize (Hns _ Hin).
Qed.

(** X4. A name that matches the pattern has fifteen characters, each a
    decimal digit or the underscore; so it holds no slash, no dot and
    no white space, and it is the name of the line that holds it
    alone. *)
Theorem X4_session_name_shape (s : pystr) :
  fullmatch SESSION_PATTERN s = true →
  length s = 15%nat
  ∧ Forall (λ c, c = ord "_" ∨ unicode_decimal c = true) s
  ∧ (ord "/" ∉ s) ∧ (ord "." ∉ s)
  ∧ Forall (λ c, isspace c = false) s
  ∧ line_name s = s.
Proof.
  intros (d & t & -> & Hd & Ht & Hdd & Htd)%fullmatch_session.
  assert (Hall : Forall (λ c, c = ord "_" ∨ unicode_decimal c = true)
                   (d ++ ord "_" :: t)).
  { rewrite forallb_forall in Hdd, Htd.
    apply Forall_app. split; [|apply Forall_cons; split; [by left|]];
      apply Forall_forall; intros c Hc%list_elem_of_In; right; auto. }
  split_and!; [rewrite length_app; cbn [length]; lia|done|..].
  - intros Hin. rewrite Forall_forall in Hall.
    destruct (Hall _ Hin) as [H|H%decimal_ge_zero]; [by vm_compute in H|].
    vm_compute in H. by apply H.
  - intros Hin. rewrite Forall_forall in Hall.
    destruct (Hall _ Hin) as [H|H%decimal_ge_zero]; [by vm_compute in H|].
    vm_compute in H. by apply H.
  - eapply Forall_impl; [exact Hall|].
    intros c [->|Hc]; [done|by apply decimal_not_space].
  - apply fullmatch_line_name. apply fullmatch_session. by exists d, t.
Qed.

(** ** Lines of a listing *)

Lemma splitlines_from_no_break n cur s :
  (length s ≤ n)%nat →
  Forall (λ c, is_linebreak c = false) cur →
  Forall (Forall (λ c, is_linebreak c = false)) (splitlines_from cur s).
Proof.
  revert cur s. induction n as [|n IH]; intros cur [|c s] Hlen Hcur;
    cbn [length] in Hlen; try lia.
  - cbn [splitlines_from]. destruct cur; [done|].
    apply Forall_singleton. by apply Forall_reverse.
  - cbn [splitlines_from]. destruct cur; [done|].
    apply Forall_singleton. by apply Forall_reverse.
  - cbn [splitlines_from]. destruct (is_linebreak c) eqn:Hc.
    + apply Forall_cons. split; [by apply Forall_reverse|].
      destruct s as [|c' s']; [done|]. cbn [length] in Hlen.
      destruct ((c =? 13) && (c' =? 10)); apply IH; cbn [length]; auto with lia.
    + apply IH; [lia|]. by apply Forall_cons.
Qed.

(** X5. No line of [splitlines] holds a carriage return (it is a line
    boundary), so the removal of carriage returns in
    [list_device_sessions] changes nothing: the name on a line is the
    stripped line. *)
Theorem X5_line_name_is_strip (output raw : pystr) :
  raw ∈ splitlines output → line_name raw = strip raw.
Proof.
  intros Hraw.
  pose proof (splitlines_from_no_break (length output) [] output
                (le_n _) (Forall_nil_2 _)) as Hlines.
  rewrite Forall_forall in Hlines. specialize (Hlines raw Hraw).
  unfold line_name. apply str_replace_absent. intros Hin.
  assert (Hl : ∀ c l, c ∈ lstrip l → c ∈ l).
  { intros c l. induction l as [|c' l IHl]; [done|]. cbn [lstrip].
    destruct (isspace c'); [|done]. intros Hc. right. by apply IHl. }
  unfold strip, rstrip in Hin.
  apply elem_of_reverse, Hl, elem_of_reverse, Hl in Hin.
  rewrite Forall_forall in Hlines. by specialize (Hlines 13 Hin).
Qed.
(** X16. On a listing that holds one valid name on each line, the
    lines ended by a line feed or by a carriage return and a line feed,
    the device sessions are these names in ascending order: every line
    is kept, as often as it is listed. *)
Theorem X16_well_formed_listing (eol : pystr) (names : list pystr) :
  eol = [10] ∨ eol = [13; 10] →
  Forall (λ name, fullmatch SESSION_PATTERN name = true) names →
  parse_sessions (names ≫= λ name, name ++ eol) = sorted names.
Proof.
  intros Heol Hnames. unfold parse_sessions.
  rewrite splitlines_lines; [|done|].
  2:{ eapply Forall_impl; [exact Hnames|]. apply fullmatch_no_break. }
  f_equal. rewrite foldl_keep_session. cbn [app].
  induction Hnames as [|name names Hname _ IH]; [done|].
  rewrite fmap_cons, filter_cons, fullmatch_line_name by done.
  rewrite decide_True by done. by rewrite IH.
Qed.
(** ** Rows of [adb devices] *)

Lemma split_from_word cur t s :
  Forall (λ c, isspace c = false) t →
  split_from cur (t ++ s) = split_from (reverse t ++ cur) s.
Proof.
  revert cur. induction t as [|c t IH]; intros cur Ht; [done|].
  apply Forall_cons in Ht as [Hc Ht].
  cbn [app split_from]. rewrite Hc, IH by done.
  by rewrite reverse_cons, <- app_assoc.
Qed.

Lemma str_split_row serial state :
  word serial → word state →
  str_split (serial ++ [9] ++ state) = [serial; state].
Proof.
  intros [Hne Hs] [Hne' Ht]. unfold str_split.
  rewrite split_from_word, app_nil_r by done.
  cbn [app split_from]. change (isspace 9) with true. cbn match.
  destruct (reverse serial) eqn:Hrev.
  { apply (f_equal reverse) in Hrev. by rewrite reverse_involutive in Hrev. }
  rewrite <- Hrev, reverse_involutive. f_equal.
  rewrite <- (app_nil_r state) at 1. rewrite split_from_word, app_nil_r by done.
  cbn [split_from].
  destruct (reverse state) eqn:Hrev'.
  { apply (f_equal reverse) in Hrev'. by rewrite reverse_involutive in Hrev'. }
  by rewrite <- Hrev', reverse_involutive.
Qed.

Lemma lstrip_word t s : word t → lstrip (t ++ s) = t ++ s.
Proof.
  intros [Hne Ht]. destruct Ht as [|c t Hc _]; [done|].
  cbn [app lstrip]. by rewrite Hc.
Qed.

Lemma strip_row serial state :
  word serial → word state →
  strip (serial ++ [9] ++ state) = serial ++ [9] ++ state.
Proof.
  intros Hs [Hne Ht]. unfold strip, rstrip. rewrite lstrip_word by done.
  rewrite !reverse_app, <- app_assoc, lstrip_word.
  - by rewrite !reverse_app, !reverse_involutive, <- !app_assoc.
  - split; [|by apply Forall_reverse].
    intros Hrev. apply (f_equal reverse) in Hrev.
    by rewrite reverse_involutive in Hrev.
Qed.

Lemma classify_device_row acc serial state :
  word serial → word state →
  classify_device acc (serial ++ [9] ++ state) =
  if decide (state = py "device") then (acc.1 ++ [serial], acc.2)
  else if decide (state = py "unauthorized") then (acc.1, acc.2 ++ [serial])
  else acc.
Proof.
  intros Hs Ht. destruct acc as [connected unauthorized].
  unfold classify_device. rewrite strip_row, str_split_row by done.
  destruct Hs as [Hne _]. destruct serial as [|c serial]; [done|].
  cbn [app truthy negb length]. by rewrite decide_False by lia.
Qed.

Lemma foldl_classify_rows rows acc :
  Forall (λ row : pystr * pystr, word row.1 ∧ word row.2) rows →
  foldl classify_device acc ((λ row, row.1 ++ [9] ++ row.2) <$> rows) =
  (acc.1 ++ (filter (λ row, row.2 = py "device") rows).*1,
   acc.2 ++ (filter (λ row, row.2 = py "unauthorized") rows).*1).
Proof.
  intros Hrows. revert acc.
  induction Hrows as [|[serial state] rows [Hs Ht] _ IH]; intros acc.
  - destruct acc. by rewrite !app_nil_r.
  - cbn [fmap list_fmap foldl fst snd]. rewrite classify_device_row by done.
    rewrite IH, !filter_cons. cbn [snd].
    destruct (decide (state = py "device")) as [->|Hne].
    + rewrite decide_False by (by vm_compute).
      cbn [fst snd fmap list_fmap]. by rewrite <- app_assoc.
    + destruct (decide (state = py "unauthorized")); [|done].
      cbn [fst snd fmap list_fmap]. by rewrite <- app_assoc.
Qed.

(** X17. On the output of [adb devices] in its usual form (the title
    line, one line for each device with the serial, a tab and the
    state, a blank line) the device check finds, in the order of the
    lines, the serials in state [device] and those in state
    [unauthorized]; the title line and the blank line count nowhere. *)
Theorem X17_usual_devices_output (rows : list (pystr * pystr)) :
  Forall (λ row : pystr * pystr, word row.1 ∧ word row.2) rows →
  parse_devices (devices_output rows) =
  ((filter (λ row, row.2 = py "device") rows).*1,
   (filter (λ row, row.2 = py "unauthorized") rows).*1).
Proof.
  intros Hrows. unfold parse_devices.
  assert (Hlines : splitlines (devices_output rows) =
            py "List of devices attached"
            :: ((λ row, row.1 ++ [9] ++ row.2) <$> rows) ++ [[]]).
  { rewrite <- (splitlines_lines [10]); [|by left|].
    - f_equal. unfold devices_output. cbn [mbind list_bind]. rewrite <- !app_assoc.
      do 2 f_equal. rewrite bind_app. f_equal.
      induction rows as [|row rows IH]; [done|].
      apply Forall_cons in Hrows as [_ Hrows].
      cbn [mbind list_bind fmap list_fmap]. rewrite <- !app_assoc.
      by rewrite IH.
    - apply Forall_cons. split; [apply (bool_decide_unpack _); by vm_compute|].
      apply Forall_app. split; [|by repeat constructor].
      apply Forall_fmap. eapply Forall_impl; [exact Hrows|].
      intros [serial state] [[_ Hs] [_ Ht]]. cbn [fst snd].
      assert (Hword : ∀ t, Forall (λ c, isspace c = false) t →
                Forall (λ c, is_linebreak c = false) t).
      { intros t Hw. eapply Forall_impl; [exact Hw|]. intros c Hc.
        destruct (is_linebreak c) eqn:Hb; [|done].
        apply linebreak_is_space in Hb. congruence. }
      apply Forall_app. split; [auto|]. apply Forall_cons. split; [done|auto]. }
  rewrite Hlines. rewrite skipn_cons, drop_0.
  rewrite foldl_app, foldl_classify_rows by done.
  cbn [foldl fst snd app]. done.
Qed.

Section Inventory.
Context {os : OS}.

Implicit Types (w : World) (args : Args) (ld : Path).

Lemma scan_entries_value ld names acc w name :
  name ∈ value (scan_entries ld names acc w) ↔
  name ∈ acc
  ∨ (name ∈ names ∧ path_is_dir (path_div ld name) w = true
     ∧ fullmatch SESSION_PATTERN name = true).
Proof.
  revert acc. induction names as [|n names IH]; intros acc.
  - cbn [scan_entries]. prog. rewrite elem_of_nil. tauto.
  - cbn [scan_entries]. prog.
    destruct (path_is_dir (path_div ld n) w) eqn:Hdir;
      [destruct (fullmatch SESSION_PATTERN n) eqn:Hm|]; cbn [andb]; rewrite IH.
    + rewrite elem_of_union, elem_of_singleton, elem_of_cons.
      split; [intros [[?| ->]|(? & ? & ?)]|intros [?|([->|?] & ? & ?)]]; tauto.
    + rewrite elem_of_cons.
      split; [tauto|intros [?|([->|?] & ? & ?)]]; [tauto|congruence|tauto].
    + rewrite elem_of_cons.
      split; [tauto|intros [?|([->|?] & ? & ?)]]; [tauto|congruence|tauto].
Qed.

(** X1. The local inventory holds exactly the names of the entries of
    the local directory that are directories and match the pattern; it
    is empty when the directory does not exist.  Taking it runs no
    command, prints nothing and changes nothing. *)
Theorem X1_local_inventory ld w :
  (∀ name, name ∈ value (list_local_sessions ld w) ↔
     path_exists ld w = true ∧ name ∈ iterdir ld w
     ∧ path_is_dir (path_div ld name) w = true
     ∧ fullmatch SESSION_PATTERN name = true)
  ∧ trace (list_local_sessions ld w) = []
  ∧ world (list_local_sessions ld w) = w.
Proof.
  split; [|apply list_local_sessions_pure].
  intros name. unfold list_local_sessions. prog.
  destruct (path_exists ld w); prog.
  - rewrite scan_entries_value, elem_of_empty. naive_solver.
  - rewrite elem_of_empty. naive_solver.
Qed.

Lemma elem_of_parse_sessions output name :
  name ∈ parse_sessions output ↔
  fullmatch SESSION_PATTERN name = true
  ∧ ∃ raw, raw ∈ splitlines output ∧ line_name raw = name.
Proof.
  unfold parse_sessions. rewrite sorted_Permutation, foldl_keep_session.
  cbn [app]. rewrite list_elem_of_filter, list_elem_of_fmap. naive_solver.
Qed.

Lemma length_parse_sessions output :
  length (parse_sessions output) =
  length (filter (λ raw, fullmatch SESSION_PATTERN (line_name raw) = true)
            (splitlines output)).
Proof.
  unfold parse_sessions. rewrite sorted_Permutation, foldl_keep_session.
  cbn [app]. induction (splitlines output) as [|raw raws IH]; [done|].
  rewrite fmap_cons, !filter_cons.
  destruct (decide (fullmatch SESSION_PATTERN (line_name raw) = true));
    cbn [length]; by rewrite IH.
Qed.

(** X2. [list_device_sessions] runs the listing command once.  When
    the command fails it raises; when it succeeds it returns, in
    ascending order, the names of the lines that match the pattern, one
    for each such line. *)
Theorem X2_device_sessions dd w :
  let proc := (os_run (listing_command dd) true w).1 in
  trace (list_device_sessions dd w) = [Exec (listing_command dd)]
  ∧ (returncode proc ≠ 0%Z → ∃ msg, value (list_device_sessions dd w) = Raise msg)
  ∧ (returncode proc = 0%Z →
     ∃ ds, value (list_device_sessions dd w) = Ok ds
           ∧ StronglySorted pystr_le ds
           ∧ (∀ name, name ∈ ds ↔
                fullmatch SESSION_PATTERN name = true
                ∧ ∃ raw, raw ∈ splitlines (stdout proc) ∧ line_name raw = name)
           ∧ length ds =
               length (filter (λ raw, fullmatch SESSION_PATTERN (line_name raw) = true)
                         (splitlines (stdout proc)))).
Proof.
  intros proc. split_and!.
  - apply list_device_sessions_trace.
  - apply list_device_sessions_failed.
  - intros Hrc. exists (parse_sessions (stdout proc)). split_and!.
    + by apply list_device_sessions_ok.
    + apply parse_sessions_sorted.
    + apply elem_of_parse_sessions.
    + apply length_parse_sessions.
Qed.

Lemma classify_device_connected acc line serial :
  serial ∈ (classify_device acc line).1 ↔
  serial ∈ acc.1 ∨ ∃ rest, str_split (strip line) = serial :: py "device" :: rest.
Proof.
  destruct acc as [connected unauthorized]. unfold classify_device. cbn [fst].
  destruct (strip line) as [|c l] eqn:Hstrip; cbn [truthy negb].
  { cbn. naive_solver. }
  destruct (str_split (c :: l)) as [|serial' [|state rest]]; cbn [length].
  - rewrite decide_True by lia. cbn. naive_solver.
  - rewrite decide_True by lia. cbn. naive_solver.
  - rewrite decide_False by lia.
    destruct (decide (state = py "device")) as [->|Hne].
    + cbn [fst]. rewrite elem_of_app, list_elem_of_singleton. naive_solver.
    + destruct (decide (state = py "unauthorized")); cbn [fst]; naive_solver.
Qed.

Lemma classify_device_unauthorized acc line serial :
  serial ∈ (classify_device acc line).2 ↔
  serial ∈ acc.2 ∨ ∃ rest, str_split (strip line) = serial :: py "unauthorized" :: rest.
Proof.
  destruct acc as [connected unauthorized]. unfold classify_device. cbn [snd].
  destruct (strip line) as [|c l] eqn:Hstrip; cbn [truthy negb].
  { cbn. naive_solver. }
  destruct (str_split (c :: l)) as [|serial' [|state rest]]; cbn [length].
  - rewrite decide_True by lia. cbn. naive_solver.
  - rewrite decide_True by lia. cbn. naive_solver.
  - rewrite decide_False by lia.
    destruct (decide (state = py "device")) as [->|Hne].
    + cbn [snd]. split; [by left|]. intros [?|[rest' Heq]]; [done|].
      injection Heq as _ Hstate _. vm_compute in Hstate. congruence.
    + destruct (decide (state = py "unauthorized")) as [->|Hne'].
      * cbn [snd]. rewrite elem_of_app, list_elem_of_singleton. naive_solver.
      * cbn [snd]. naive_solver.
Qed.

Lemma foldl_classify_device lines acc serial :
  (serial ∈ (foldl classify_device acc lines).1 ↔
     serial ∈ acc.1
     ∨ ∃ line rest, line ∈ lines
                    ∧ str_split (strip line) = serial :: py "device" :: rest)
  ∧ (serial ∈ (foldl classify_device acc lines).2 ↔
     serial ∈ acc.2
     ∨ ∃ line rest, line ∈ lines
                    ∧ str_split (strip line) = serial :: py "unauthorized" :: rest).
Proof.
  revert acc. induction lines as [|line lines IH]; intros acc.
  - cbn [foldl]. split; (split; [by left|]);
      by intros [?|(line & rest & ?%elem_of_nil & _)].
  - cbn [foldl]. destruct (IH (classify_device acc line)) as [-> ->].
    rewrite classify_device_connected, classify_device_unauthorized.
    setoid_rewrite elem_of_cons. naive_solver.
Qed.

(** X3. The device check reads [adb devices] after its first line: a
    serial is in [connected] exactly when a later line, split at white
    space, begins with that serial and the state [device], and in
    [unauthorized] exactly when the state is [unauthorized].  The first
    line, blank lines, lines of one word and other states count
    nowhere. *)
Theorem X3_parse_devices output serial :
  (serial ∈ (parse_devices output).1 ↔
     ∃ line rest, line ∈ drop 1 (splitlines output)
                  ∧ str_split (strip line) = serial :: py "device" :: rest)
  ∧ (serial ∈ (parse_devices output).2 ↔
     ∃ line rest, line ∈ drop 1 (splitlines output)
                  ∧ str_split (strip line) = serial :: py "unauthorized" :: rest).
Proof.
  unfold parse_devices.
  destruct (foldl_classify_device (drop 1 (splitlines output)) ([], []) serial)
    as [-> ->].
  cbn [fst snd]. rewrite elem_of_nil. naive_solver.
Qed.
End Inventory.

Lemma dict_fromkeys_id keys : NoDup keys → dict_fromkeys keys = keys.
Proof.
  unfold dict_fromkeys.
  assert (H : ∀ d, NoDup (d ++ keys) →
            foldl (λ d k, if decide (k ∈ d) then d else d ++ [k]) d keys = d ++ keys).
  { induction keys as [|k keys IH]; intros d Hnd.
    - by rewrite app_nil_r.
    - cbn [foldl]. apply NoDup_app in Hnd as (Hd & Hdisj & Hkeys).
      rewrite decide_False by (intros Hk; apply (Hdisj k Hk); by left).
      rewrite IH, <- app_assoc; [done|].
      rewrite <- app_assoc. apply NoDup_app. split_and!; [done| |done].
      intros x Hx. by apply Hdisj. }
  intros Hnd. by apply (H []).
Qed.


Section Phases.
Context {os : OS}.

Implicit Types (w : World) (args : Args) (ld : Path).

Lemma delete_session_world s dd dry w :
  world (delete_session s dd dry w) =
  if dry then w else (os_run (delete_command s dd) true w).2.
Proof.
  unfold delete_session, delete_command. destruct dry; prog; [done|].
  by destruct (decide (returncode _ ≠ _)); prog.
Qed.

(** X6. [delete_session] reports success exactly when it is a dry run
    or [rm -rf] exits with status zero: nothing is checked afterwards.
    Outside dry-run mode it runs that one command; in dry-run mode it
    runs nothing and leaves the world as it is. *)
Theorem X6_delete_session_success s dd dry w :
  let run := os_run (delete_command s dd) true w in
  (value (delete_session s dd dry w) = true ↔ dry = true ∨ returncode run.1 = 0%Z)
  ∧ commands (trace (delete_session s dd dry w)) =
      (if dry then [] else [delete_command s dd])
  ∧ world (delete_session s dd dry w) = (if dry then w else run.2).
Proof.
  intros run.
  rewrite delete_session_value, delete_session_commands, delete_session_world.
  fold run. split_and!; [|done..].
  by rewrite orb_true_iff, bool_decide_eq_true.
Qed.

Lemma delete_loop_split args cs ok failed w :
  ∃ ok' failed',
    value (delete_loop args cs ok failed w) = (ok ++ ok', failed ++ failed')
    ∧ sublist ok' cs ∧ sublist failed' cs ∧ ok' ++ failed' ≡ₚ cs.
Proof.
  revert ok failed w. induction cs as [|s cs IH]; intros ok failed w.
  - exists [], []. by rewrite !app_nil_r.
  - cbn [delete_loop]. prog.
    destruct (value (delete_session _ _ _ _)).
    + destruct (IH (ok ++ [s]) failed
                  (world (delete_session s (device_dir args) (dry_run args) w)))
        as (ok' & failed' & -> & Hok & Hf & Hp).
      exists (s :: ok'), failed'. rewrite <- app_assoc. split_and!; auto.
      * by apply sublist_skip.
      * by apply sublist_cons.
      * simpl. by f_equiv.
    + destruct (IH ok (failed ++ [s])
                  (world (delete_session s (device_dir args) (dry_run args) w)))
        as (ok' & failed' & -> & Hok & Hf & Hp).
      exists ok', (s :: failed'). rewrite <- app_assoc. split_and!; auto.
      * by apply sublist_cons.
      * by apply sublist_skip.
      * rewrite <- Permutation_middle. by f_equiv.
Qed.

(** X7. A failure never ends a phase: every new session is in exactly
    one of [pulled_ok] and [pull_failed], every candidate in exactly one
    of [deleted_ok] and [delete_failed], each list in the order of its
    phase, so the four counts of the summary add up. *)
Theorem X7_every_session_classified args ld ds w :
  let o := value (sync args ld ds w) in
  sublist (pulled_ok o) (new_sessions o)
  ∧ sublist (pull_failed o) (new_sessions o)
  ∧ pulled_ok o ++ pull_failed o ≡ₚ new_sessions o
  ∧ sublist (deleted_ok o) (delete_candidates o)
  ∧ sublist (delete_failed o) (delete_candidates o)
  ∧ deleted_ok o ++ delete_failed o ≡ₚ delete_candidates o
  ∧ (length (pulled_ok o) + length (pull_failed o) = length (new_sessions o))%nat
  ∧ (length (deleted_ok o) + length (delete_failed o)
     = length (delete_candidates o))%nat.
Proof.
  intros o. subst o.
  pose proof (sync_run args ld ds w) as H. cbv zeta in H. destruct H as (-> & _).
  cbn [new_sessions pulled_ok pull_failed delete_candidates deleted_ok delete_failed].
  set (new := filter _ ds).
  destruct (pull_loop_split args ld new [] [] w)
    as (ok & failed & Hpull & Hok & Hfailed & Hperm).
  rewrite Hpull. cbn [fst snd app].
  set (cands := candidates_of _ _ _).
  destruct (delete_loop_split args cands [] []
              (world (pull_loop args ld new [] [] w)))
    as (dok & dfailed & Hdel & Hdok & Hdfailed & Hdperm).
  rewrite Hdel. cbn [fst snd app].
  split_and!; auto.
  - by rewrite <- Hperm, length_app.
  - by rewrite <- Hdperm, length_app.
Qed.

Lemma pull_loop_flags args args' ld ss ok failed w :
  device_dir args = device_dir args' →
  dry_run args = dry_run args' →
  pull_loop args ld ss ok failed w = pull_loop args' ld ss ok failed w.
Proof.
  intros Hdd Hdry. revert ok failed w.
  induction ss as [|s ss IH]; intros ok failed w; [done|].
  cbn [pull_loop]. rewrite !bind_run, Hdd, Hdry.
  destruct (value (pull_session _ _ _ _ _)); by rewrite IH.
Qed.

(** X8. What is pulled does not depend on the deletion flags: two runs
    that differ in [--no-delete] and [--delete-old-only] only have the
    same inventory, the same plan and the same pull results. *)
Theorem X8_pulls_ignore_deletion_flags args args' ld ds w :
  device_dir args = device_dir args' →
  dry_run args = dry_run args' →
  let o := value (sync args ld ds w) in
  let o' := value (sync args' ld ds w) in
  local_before o = local_before o'
  ∧ new_sessions o = new_sessions o'
  ∧ old_sessions o = old_sessions o'
  ∧ pulled_ok o = pulled_ok o'
  ∧ pull_failed o = pull_failed o'.
Proof.
  intros Hdd Hdry o o'. subst o o'.
  pose proof (sync_run args ld ds w) as H. cbv zeta in H. destruct H as (-> & _).
  pose proof (sync_run args' ld ds w) as H. cbv zeta in H. destruct H as (-> & _).
  cbn [local_before new_sessions old_sessions pulled_ok pull_failed].
  by rewrite (pull_loop_flags args args').
Qed.

Lemma pull_command_inj s s' dd ld :
  pull_command s dd ld = pull_command s' dd ld → s = s'.
Proof. unfold pull_command. intros [= H]. by simplify_list_eq. Qed.

(** X9. A session that is in the local inventory is not pulled again:
    no pull command of the run names it. *)
Theorem X9_local_sessions_not_pulled args ld ds w s :
  s ∈ local_before (value (sync args ld ds w)) →
  pull_command s (device_dir args) ld ∉ commands (trace (sync args ld ds w)).
Proof.
  intros Hs. rewrite sync_commands. destruct (dry_run args); [by apply not_elem_of_nil|].
  intros [Hin|Hin]%elem_of_app.
  - apply list_elem_of_fmap in Hin as (s' & ->%pull_command_inj & Hin).
    apply elem_of_new_sessions in Hin as [_ Hin]. done.
  - by apply list_elem_of_fmap in Hin as (s' & [=] & _).
Qed.

(** X10. When no name is listed twice, the candidates of the default
    policy are the old sessions followed by the pulled ones, as they
    are: the removal of duplicates drops nothing. *)
Theorem X10_default_candidates_without_duplicates args ld ds w :
  NoDup ds →
  no_delete args = false →
  delete_old_only args = false →
  let o := value (sync args ld ds w) in
  delete_candidates o = old_sessions o ++ pulled_ok o.
Proof.
  intros Hnd Hno Hold o.
  destruct (sync_pulled args ld ds w) as (Hok & _ & _ & Hcands).
  destruct (sync_plan args ld ds w) as [Hn Ho].
  fold o in Hok, Hcands, Hn, Ho.
  rewrite Hcands. unfold candidates_of. rewrite Hno, Hold.
  apply dict_fromkeys_id, NoDup_app. split_and!.
  - rewrite Ho. by apply NoDup_filter.
  - intros s [_ Hs]%elem_of_old_sessions Hp.
    apply (elem_of_sublist _ _ _ Hp) in Hok.
    by apply elem_of_new_sessions in Hok as [_ Hok].
  - eapply sublist_NoDup; [|exact Hok]. rewrite Hn. by apply NoDup_filter.
Qed.
End Phases.

Section Runs.
Context {os : OS}.

Implicit Types (w : World) (args : Args) (ld : Path).

Lemma list_device_sessions_world dd w :
  world (list_device_sessions dd w) = (os_run (listing_command dd) true w).2.
Proof.
  unfold list_device_sessions. prog. rewrite run_checked_world.
  by destruct (value (run_checked _ _ _)); prog.
Qed.

Lemma list_device_sessions_inv dd w ds :
  value (list_device_sessions dd w) = Ok ds →
  returncode (os_run (listing_command dd) true w).1 = 0%Z
  ∧ ds = parse_sessions (stdout (os_run (listing_command dd) true w).1).
Proof.
  intros Hds.
  destruct (decide (returncode (os_run (listing_command dd) true w).1 = 0%Z))
    as [Hrc|Hrc].
  - rewrite list_device_sessions_ok in Hds by done. by injection Hds as <-.
  - destruct (list_device_sessions_failed dd w Hrc) as [msg Hmsg]. congruence.
Qed.

Lemma preflight_world w :
  world (preflight w) =
  if which (py "adb") w then (os_run devices_command true w).2 else w.
Proof.
  rewrite preflight_run. destruct (which (py "adb") w); [|done].
  apply ensure_device_connected_world.
Qed.

(** The commands of [main], case by case. *)
Lemma main_commands args w :
  let ld := resolve (local_dir args) w in
  let dd := device_dir args in
  let pre := preflight (mkdir ld w) in
  let ls := list_device_sessions dd (world pre) in
  let o := value (sync args ld (match value ls with Ok ds => ds | Raise _ => [] end)
                    (world ls)) in
  commands (trace (main args w)) =
  match value pre with
  | Raise _ => commands (trace pre)
  | Ok _ =>
      devices_command :: listing_command dd ::
      match value ls with
      | Ok (_ :: _) =>
          if dry_run args then []
          else ((λ s, pull_command s dd ld) <$> new_sessions o)
               ++ ((λ s, delete_command s dd) <$> delete_candidates o)
      | _ => []
      end
  end.
Proof.
  intros ld dd pre ls o.
  destruct (main_run args w) as [_ Hcommands].
  fold ld dd pre ls in Hcommands. rewrite Hcommands.
  destruct (value pre) as [serial|exc] eqn:Hpre; [|by rewrite app_nil_r].
  assert (Hpc : commands (trace pre) = [devices_command])
    by exact (preflight_ok_commands _ _ Hpre).
  rewrite Hpc. cbn [app]. do 2 f_equal.
  destruct (value ls) as [[|s ds]|exc]; [done| |done].
  by rewrite sync_commands.
Qed.

(** The world that [main] leaves, case by case. *)
Lemma main_world args w :
  let ld := resolve (local_dir args) w in
  let pre := preflight (mkdir ld w) in
  let ls := list_device_sessions (device_dir args) (world pre) in
  world (main args w) =
  match value pre with
  | Raise _ => world pre
  | Ok _ =>
      match value ls with
      | Ok (s :: ds) => world (sync args ld (s :: ds) (world ls))
      | _ => world ls
      end
  end.
Proof.
  intros ld pre ls. unfold main. prog. fold ld. fold pre.
  destruct (value pre) as [serial|exc]; prog; [|done]. fold ls.
  destruct (value ls) as [[|s ds]|exc]; cbn [truthy]; prog; [done| |done].
  by destruct (_ || _).
Qed.

Lemma sync_sessions_listed args ld ds w s :
  let o := value (sync args ld ds w) in
  s ∈ new_sessions o ∨ s ∈ old_sessions o ∨ s ∈ pulled_ok o
  ∨ s ∈ delete_candidates o →
  s ∈ ds.
Proof.
  intros o.
  destruct (sync_pulled args ld ds w) as (Hok & _ & _ & Hcands).
  fold o in Hok, Hcands.
  assert (Hnew : s ∈ new_sessions o → s ∈ ds)
    by by intros [? _]%elem_of_new_sessions.
  assert (Hold : s ∈ old_sessions o → s ∈ ds)
    by by intros [? _]%elem_of_old_sessions.
  assert (Hpulled : s ∈ pulled_ok o → s ∈ ds).
  { intros Hs. apply Hnew. exact (elem_of_sublist _ _ _ Hs Hok). }
  intros [?|[?|[?|Hs]]]; auto.
  rewrite Hcands in Hs. unfold candidates_of in Hs.
  destruct (no_delete args); [by apply elem_of_nil in Hs|].
  destruct (delete_old_only args); [auto|].
  apply dict_fromkeys_elem, elem_of_app in Hs as [?|?]; auto.
Qed.

(** X11. With [--no-delete] no removal is run: no command of the run
    is [adb shell rm -rf] on any path. *)
Theorem X11_no_delete_never_removes args w s dd' :
  no_delete args = true →
  delete_command s dd' ∉ commands (trace (main args w)).
Proof.
  intros Hno. rewrite main_commands.
  set (ld := resolve (local_dir args) w).
  set (pre := preflight (mkdir ld w)).
  set (ls := list_device_sessions (device_dir args) (world pre)).
  destruct (value pre) as [serial|exc].
  2:{ unfold pre. rewrite preflight_commands.
      destruct (which _ _); [|by apply not_elem_of_nil].
      by intros [=]%list_elem_of_singleton. }
  intros [Heq|[Heq|Hin]%elem_of_cons]%elem_of_cons; [done| |].
  { injection Heq as Hrm _. by vm_compute in Hrm. }
  destruct (value ls) as [[|s0 ds]|exc];
    [by apply elem_of_nil in Hin| |by apply elem_of_nil in Hin].
  destruct (dry_run args); [by apply elem_of_nil in Hin|].
  destruct (sync_pulled args ld (s0 :: ds) (world ls)) as (_ & _ & _ & Hc).
  rewrite Hc in Hin. unfold candidates_of in Hin. rewrite Hno in Hin.
  rewrite fmap_nil, app_nil_r in Hin.
  by apply list_elem_of_fmap in Hin as (s' & [=] & _).
Qed.

(** X12. Whatever the device lists, the run pulls and removes sessions
    only: every command of [main] is [adb devices], the listing, or a
    pull or removal of [device_dir/s] for a name [s] that is on a line
    of the listing and matches the pattern. *)
Theorem X12_only_listed_sessions_touched args w cmd :
  let ld := resolve (local_dir args) w in
  let dd := device_dir args in
  let pre := preflight (mkdir ld w) in
  let listing := (os_run (listing_command dd) true (world pre)).1 in
  cmd ∈ commands (trace (main args w)) →
  cmd = devices_command
  ∨ cmd = listing_command dd
  ∨ ∃ s, fullmatch SESSION_PATTERN s = true
         ∧ (∃ raw, raw ∈ splitlines (stdout listing) ∧ line_name raw = s)
         ∧ (cmd = pull_command s dd ld ∨ cmd = delete_command s dd).
Proof.
  intros ld dd pre listing. rewrite main_commands. fold ld dd pre.
  set (ls := list_device_sessions dd (world pre)).
  destruct (value pre) as [serial|exc].
  2:{ unfold pre. rewrite preflight_commands.
      destruct (which _ _); [|by intros ?%elem_of_nil].
      intros ->%list_elem_of_singleton. by left. }
  intros [->|[->|Hin]%elem_of_cons]%elem_of_cons; [by left|by right; left|].
  destruct (value ls) as [[|s0 ds]|exc] eqn:Hls;
    [by apply elem_of_nil in Hin| |by apply elem_of_nil in Hin].
  destruct (dry_run args); [by apply elem_of_nil in Hin|].
  apply list_device_sessions_inv in Hls as [_ Hds]. fold listing in Hds.
  set (o := value (sync args ld (s0 :: ds) (world ls))) in *.
  assert (Hlisted : ∀ s, s ∈ new_sessions o ∨ s ∈ delete_candidates o →
            fullmatch SESSION_PATTERN s = true
            ∧ ∃ raw, raw ∈ splitlines (stdout listing) ∧ line_name raw = s).
  { intros s Hs. apply elem_of_parse_sessions. rewrite <- Hds.
    apply (sync_sessions_listed args ld (s0 :: ds) (world ls)). fold o. tauto. }
  right; right.
  apply elem_of_app in Hin as [Hin|Hin];
    apply list_elem_of_fmap in Hin as (s & -> & Hs);
    exists s; destruct (Hlisted s) as [Hm Hraw]; auto.
Qed.

Lemma pull_loop_world_dry args ld ss ok failed w :
  dry_run args = true → world (pull_loop args ld ss ok failed w) = w.
Proof.
  intros Hdry. revert ok failed w. induction ss as [|s ss IH]; intros ok failed w.
  - done.
  - cbn [pull_loop]. prog.
    destruct (value (pull_session _ _ _ _ _)); rewrite IH;
      by rewrite pull_session_world, Hdry.
Qed.

Lemma delete_loop_world_dry args cs ok failed w :
  dry_run args = true → world (delete_loop args cs ok failed w) = w.
Proof.
  intros Hdry. revert ok failed w. induction cs as [|s cs IH]; intros ok failed w.
  - done.
  - cbn [delete_loop]. prog.
    destruct (value (delete_session _ _ _ _)); rewrite IH;
      by rewrite delete_session_world, Hdry.
Qed.

Lemma sync_world_dry args ld ds w :
  dry_run args = true → world (sync args ld ds w) = w.
Proof.
  intros Hdry.
  pose proof (sync_run args ld ds w) as H. cbv zeta in H.
  destruct H as (_ & _ & ->).
  by rewrite delete_loop_world_dry, pull_loop_world_dry.
Qed.

(** X13. A dry run changes nothing beyond its checks: the two phases
    run no command and leave the world as they found it, so [main]
    leaves the world that [mkdir], [adb devices] and the listing
    command made. *)
Theorem X13_dry_run_changes_nothing args w :
  dry_run args = true →
  let w1 := mkdir (resolve (local_dir args) w) w in
  let wd := (os_run devices_command true w1).2 in
  (∀ ld ds w', world (sync args ld ds w') = w'
               ∧ commands (trace (sync args ld ds w')) = [])
  ∧ world (main args w) =
    if which (py "adb") w1 then
      match value (preflight w1) with
      | Ok _ => (os_run (listing_command (device_dir args)) true wd).2
      | Raise _ => wd
      end
    else w1.
Proof.
  intros Hdry w1 wd. split.
  - intros ld ds w'. split; [by apply sync_world_dry|].
    by rewrite sync_commands, Hdry.
  - rewrite main_world. fold w1.
    assert (Hpw : world (preflight w1)
                  = if which (py "adb") w1 then wd else w1)
      by apply preflight_world.
    destruct (which (py "adb") w1) eqn:Hadb.
    + rewrite Hpw. destruct (value (preflight w1)); [|done].
      destruct (value (list_device_sessions _ _)) as [[|s ds]|exc] eqn:Hls;
        rewrite ?sync_world_dry by done; apply list_device_sessions_world.
    + rewrite Hpw. by rewrite preflight_run, Hadb.
Qed.

(** X14. Without [adb] in the path the run stops at once: status 1,
    one line on the error stream and no command; the local directory
    has been created all the same. *)
Theorem X14_adb_missing args w :
  let w1 := mkdir (resolve (local_dir args) w) w in
  which (py "adb") w1 = false →
  main args w = (1%Z, [Err (py "[ERROR] adb was not found in PATH.")], w1).
Proof.
  intros w1 Hadb. unfold main. rewrite !bind_run. prog. fold w1.
  rewrite preflight_run, Hadb. by prog.
Qed.

End Runs.

(** ** Further runs on the scripted operating system *)

(** A listing of one name between blanks, ended by a carriage return
    and a line feed. *)
Lemma X2_witness :
  let os := fake_os (script (py " 20240102_100000 " ++ [13; 10] ++ py "lost+found" ++ [10]
                             ++ day1 ++ [10])) in
  value (@list_device_sessions os (py "/sdcard/rec") []) = Ok [day1; day2].
Proof.
  intros os.
  destruct (X2_device_sessions (os := os) (py "/sdcard/rec") []) as (_ & _ & Hok).
  destruct (Hok eq_refl) as (ds & Hds & _ & Helem & Hlen).
  rewrite Hds. vm_compute in Hds. by injection Hds as <-.
Defined.

Lemma X4_witness : length day1 = 15%nat ∧ line_name day1 = day1.
Proof.
  destruct (X4_session_name_shape day1) as (Hlen & _ & _ & _ & _ & Hname);
    [by vm_compute|done].
Defined.

Lemma X5_witness :
  line_name (py " 20240101_100000 ") = strip (py " 20240101_100000 ").
Proof.
  apply (X5_line_name_is_strip (py " 20240101_100000 " ++ [13; 10] ++ day2 ++ [10])).
  decided.
Defined.

(** The same listing and disk with and without [--no-delete]. *)
Lemma X8_witness :
  let os := fake_os (flaky []) in
  let run no_del := value (@sync os (fake_args false no_del false) (py "/data")
                             [day1; day2; day3] [py "/data"; py "/data/20240103_100000"]) in
  pulled_ok (run false) = pulled_ok (run true)
  ∧ pull_failed (run false) = pull_failed (run true).
Proof.
  intros os run.
  destruct (X8_pulls_ignore_deletion_flags (os := os)
              (fake_args false false false) (fake_args false true false)
              (py "/data") [day1; day2; day3]
              [py "/data"; py "/data/20240103_100000"] eq_refl eq_refl)
    as (_ & _ & _ & Hok & Hfailed).
  by split.
Defined.

Lemma X9_witness :
  let os := fake_os (script []) in
  @pull_command os day2 (py "/sdcard/rec") (py "/data")
  ∉ commands (trace (@sync os (fake_args false false false) (py "/data")
                       [day1; day2] [py "/data"; py "/data/20240102_100000"])).
Proof.
  intros os.
  apply (X9_local_sessions_not_pulled (os := os) (fake_args false false false)).
  decided.
Defined.

Lemma X10_witness :
  let o := value (@sync (fake_os (script [])) (fake_args false false false)
                    (py "/data") [day1; day2] [py "/data"; py "/data/20240102_100000"]) in
  delete_candidates o = [day2; day1] ∧ old_sessions o ++ pulled_ok o = [day2; day1].
Proof.
  intros o.
  pose proof (X10_default_candidates_without_duplicates
                (os := fake_os (script [])) (fake_args false false false)
                (py "/data") [day1; day2] [py "/data"; py "/data/20240102_100000"]) as H.
  assert (Hsum : old_sessions o ++ pulled_ok o = [day2; day1]) by by vm_compute.
  split; [|done]. rewrite <- Hsum. apply H; [decided|done..].
Defined.

Lemma X11_witness :
  delete_command day1 (py "/sdcard/rec")
  ∉ commands (trace (@main (fake_os (script (lines [day1])))
                       (fake_args false true false) [])).
Proof. by apply X11_no_delete_never_removes. Defined.

Lemma X12_witness :
  let os := fake_os (script (lines [day1] ++ py "lost+found" ++ [10])) in
  @pull_command os day1 (py "/sdcard/rec") (py "/data")
  ∈ commands (trace (@main os (fake_args false false false) []))
  ∧ fullmatch SESSION_PATTERN day1 = true.
Proof.
  intros os.
  assert (Hin : @pull_command os day1 (py "/sdcard/rec") (py "/data")
                ∈ commands (trace (@main os (fake_args false false false) [])))
    by decided.
  split; [done|].
  destruct (X12_only_listed_sessions_touched (os := os)
              (fake_args false false false) [] _ Hin)
    as [Heq|[Heq|(s & Hm & _ & [Heq|Heq])]]; [done..| |done].
  apply pull_command_inj in Heq. by subst s.
Defined.

Lemma X13_witness :
  world (@main (fake_os (script (lines [day1; day2]))) (fake_args true false false) [])
  = [py "/data"].
Proof.
  destruct (X13_dry_run_changes_nothing
              (os := fake_os (script (lines [day1; day2])))
              (fake_args true false false) [] eq_refl) as [_ Hworld].
  rewrite Hworld. by vm_compute.
Defined.

Lemma X14_witness :
  let os := fake_os {| sc_adb := false; sc_devices := exited 127;
                       sc_listing := exited 127; sc_pull_fails := [];
                       sc_pull_noop := []; sc_rm_fails := [] |} in
  @main os (fake_args false false false) []
  = (1%Z, [Err (py "[ERROR] adb was not found in PATH.")], [py "/data"]).
Proof. intros os. by apply (X14_adb_missing (os := os)). Defined.


Lemma X16_witness :
  parse_sessions ([day2; day1] ≫= λ name, name ++ [13; 10]) = [day1; day2].
Proof.
  rewrite (X16_well_formed_listing [13; 10] [day2; day1]); [by vm_compute|by right|].
  decided.
Defined.

Lemma X17_witness :
  parse_devices (devices_output [(py "2G0YC1ZF8B07XY", py "unauthorized");
                                 (py "1WMHH815PR0405", py "device");
                                 (py "emulator-5554", py "offline")])
  = ([py "1WMHH815PR0405"], [py "2G0YC1ZF8B07XY"]).
Proof.
  rewrite X17_usual_devices_output; [by vm_compute|].
  unfold word. decided.
Defined.
